(** * advanced-alchemy: request-scoped session lifecycle and repository service

    A shallow embedding of

    - [advanced_alchemy/extensions/litestar/plugins/init/config/asyncio.py]
      (the before-send handlers, the autocommit handler maker and the
      dependency providers of the Litestar plugin configuration), and
    - [advanced_alchemy/service/_async.py] (the repository service),

    together with the properties the specification states about them.

    Python coroutines are run to completion at each [await]; nothing in the
    modelled functions depends on interleaving, so an [async def] is embedded
    as an ordinary state-and-exception computation. *)

From Stdlib Require Import ZArith String List Bool Lia.
From stdpp Require Import base option gmap strings list fin_maps.

Local Open Scope Z_scope.

(** ** Exceptions and the state-and-exception monad *)

Inductive Exception : Type :=
| ValueError (msg : string)
| KeyError (key : string)
| AttributeError (name : string)
| TypeError (msg : string)
| RepositoryError (msg : string)
| External (code : nat).
(* [External] stands for whatever a collaborator (session, engine, session
   maker, repository) raises; the code tells two such errors apart. *)

Inductive Result (A : Type) : Type :=
| Ok (a : A)
| Raise (e : Exception).
Arguments Ok {A} a.
Arguments Raise {A} e.

Definition M (St A : Type) : Type := St -> Result A * St.

Definition ret {St A} (a : A) : M St A := fun w => (Ok a, w).

Definition bind {St A B} (m : M St A) (k : A -> M St B) : M St B :=
  fun w =>
    match m w with
    | (Ok a, w1) => k a w1
    | (Raise e, w1) => (Raise e, w1)
    end.

Definition raise {St A} (e : Exception) : M St A := fun w => (Raise e, w).

Definition gets {St A} (f : St -> A) : M St A := fun w => (Ok (f w), w).

Definition modify {St} (f : St -> St) : M St unit := fun w => (Ok tt, f w).

(** [try: body finally: cleanup].  The cleanup always runs, in the state the
    body left.  When the cleanup returns normally the outcome of the body
    (value or exception) is the outcome of the statement; an exception raised
    by the cleanup replaces it. *)
Definition try_finally {St A} (body : M St A) (cleanup : M St unit) : M St A :=
  fun w =>
    match body w with
    | (r, w1) =>
        match cleanup w1 with
        | (Ok _, w2) => (r, w2)
        | (Raise e, w2) => (Raise e, w2)
        end
    end.

Declare Scope py_scope.
Delimit Scope py_scope with py.
Notation "x <~ c ;; k" := (bind c (fun x => k))
  (at level 200, c at level 99, k at level 200, only parsing) : py_scope.
Notation "c ;;; k" := (bind c (fun _ => k))
  (at level 200, k at level 200, only parsing) : py_scope.
Local Open Scope py_scope.

(** ** The Litestar plugin configuration *)

Module Litestar.

(** An ASGI message: a dictionary that always has a ["type"]; ["status"] is
    present on response-start events. *)
Record Message : Type := {
  msg_type : string;
  msg_status : option Z;
}.

(** Objects of the collaborators are handles.  A session remembers the
    session maker that produced it and its serial number. *)
Record Session : Type := { made_by : nat; serial : nat }.

Inductive StateValue : Type :=
| SVNone
| SVEngine (engine : nat)
| SVSessionMaker (maker : nat)
| SVOther (tag : nat).

(** Calls made on the collaborators, in the order they were made. *)
Inductive Event : Type :=
| ECreate (s : Session)
| ECommit (s : Session)
| ERollback (s : Session)
| EClose (s : Session)
| EDispose (engine : nat).

Record World : Type := {
  app_state : gmap string StateValue;  (* [Litestar.state] *)
  scope_state : gmap string Session;   (* Litestar's namespace in [scope] *)
  trace : list Event;
}.

Definition with_app_state (f : gmap string StateValue -> gmap string StateValue)
    (w : World) : World :=
  {| app_state := f (app_state w); scope_state := scope_state w; trace := trace w |}.

Definition with_scope_state (f : gmap string Session -> gmap string Session)
    (w : World) : World :=
  {| app_state := app_state w; scope_state := f (scope_state w); trace := trace w |}.

Definition with_trace (f : list Event -> list Event) (w : World) : World :=
  {| app_state := app_state w; scope_state := scope_state w; trace := f (trace w) |}.

(** [SQLAlchemyAsyncConfig]: the fields the modelled methods read. *)
Record SQLAlchemyAsyncConfig : Type := {
  engine_dependency_key : string;
  session_dependency_key : string;
  engine_app_state_key : string;
  session_maker_app_state_key : string;
}.

Definition default_config : SQLAlchemyAsyncConfig :=
  {| engine_dependency_key := "db_engine";
     session_dependency_key := "db_session";
     engine_app_state_key := "db_engine";
     session_maker_app_state_key := "session_maker_class" |}.

(** [x in range(start, stop)] for an integer [x]. *)
Definition in_range (start stop x : Z) : bool := ((start <=? x) && (x <? stop))%Z.

Section Plugin.

(** Constants of [plugins/init/config/common.py] and of Litestar. *)
Variable SESSION_SCOPE_KEY : string.
Variable SESSION_TERMINUS_ASGI_EVENTS : gset string.
Variable HTTP_RESPONSE_START : string.

(** What the collaborators do: [fault ev past] is the exception the call [ev]
    raises after the calls [past], if it raises. *)
Variable fault : Event -> list Event -> option Exception.

Definition extern (ev : Event) : M World unit :=
  fun w =>
    let w1 := with_trace (fun t => t ++ [ev]) w in
    match fault ev (trace w) with
    | Some e => (Raise e, w1)
    | None => (Ok tt, w1)
    end.

(** Litestar's scope-state helpers. *)
Definition get_litestar_scope_state (key : string) : M World (option Session) :=
  gets (fun w => scope_state w !! key).

Definition set_litestar_scope_state (key : string) (value : Session) : M World unit :=
  modify (with_scope_state (insert key value)).

Definition delete_litestar_scope_state (key : string) : M World unit :=
  fun w =>
    match scope_state w !! key with
    | Some _ => (Ok tt, with_scope_state (delete key) w)
    | None => (Raise (KeyError key), w)
    end.

(** [message["status"]] *)
Definition message_status (message : Message) : M World Z :=
  match msg_status message with
  | Some status => ret status
  | None => raise (KeyError "status")
  end.

(** The final block shared by both handlers:
    [if session and message["type"] in SESSION_TERMINUS_ASGI_EVENTS].
    A session object is truthy. *)
Definition close_and_clear (session : option Session) (message : Message) : M World unit :=
  match session with
  | Some s =>
      if bool_decide (msg_type message ∈ SESSION_TERMINUS_ASGI_EVENTS) then
        extern (EClose s) ;;;
        delete_litestar_scope_state SESSION_SCOPE_KEY
      else ret tt
  | None => ret tt
  end.

Definition default_before_send_handler (message : Message) : M World unit :=
  session <~ get_litestar_scope_state SESSION_SCOPE_KEY ;;
  close_and_clear session message.

(** The body of the [try] of the autocommit handler. *)
Definition commit_or_rollback (commit_range : Z * Z)
    (extra_commit_statuses extra_rollback_statuses : gset Z)
    (session : option Session) (message : Message) : M World unit :=
  match session with
  | Some s =>
      if String.eqb (msg_type message) HTTP_RESPONSE_START then
        status <~ message_status message ;;
        if (in_range commit_range.1 commit_range.2 status
            || bool_decide (status ∈ extra_commit_statuses))
           && negb (bool_decide (status ∈ extra_rollback_statuses))
        then extern (ECommit s)
        else extern (ERollback s)
      else ret tt
  | None => ret tt
  end.

(** The closure [handler] returned by [autocommit_handler_maker], with the
    variables it captures as arguments. *)
Definition handler (commit_range : Z * Z)
    (extra_commit_statuses extra_rollback_statuses : gset Z)
    (message : Message) : M World unit :=
  session <~ get_litestar_scope_state SESSION_SCOPE_KEY ;;
  try_finally
    (commit_or_rollback commit_range extra_commit_statuses extra_rollback_statuses
       session message)
    (close_and_clear session message).

Definition overlap_msg : string :=
  "Extra rollback statuses and commit statuses must not share any status codes".

Definition autocommit_handler_maker (commit_on_redirect : bool)
    (extra_commit_statuses extra_rollback_statuses : option (gset Z))
    : Result (Message -> M World unit) :=
  let extra_commit_statuses := default ∅ extra_commit_statuses in
  let extra_rollback_statuses := default ∅ extra_rollback_statuses in
  if bool_decide (0 < size (extra_commit_statuses ∩ extra_rollback_statuses))%nat then
    Raise (ValueError overlap_msg)
  else
    let commit_range := (200, if negb commit_on_redirect then 300 else 400) in
    Ok (handler commit_range extra_commit_statuses extra_rollback_statuses).

(** [autocommit_before_send_handler = autocommit_handler_maker()] *)
Definition autocommit_before_send_handler : Result (Message -> M World unit) :=
  autocommit_handler_maker false None None.

(** *** Methods of [SQLAlchemyAsyncConfig] *)

(** [state.get(key)]: the stored value, [None] when the key is absent. *)
Definition state_get (key : string) : M World StateValue :=
  gets (fun w => default SVNone (app_state w !! key)).

(** [state[key]] *)
Definition state_getitem (key : string) : M World StateValue :=
  fun w =>
    match app_state w !! key with
    | Some v => (Ok v, w)
    | None => (Raise (KeyError key), w)
    end.

(** [state.pop(key)], without a default. *)
Definition state_pop (key : string) : M World StateValue :=
  fun w =>
    match app_state w !! key with
    | Some v => (Ok v, with_app_state (delete key) w)
    | None => (Raise (KeyError key), w)
    end.

(** [session_maker()]: a new session object on every call. *)
Definition call_session_maker (session_maker : StateValue) : M World Session :=
  match session_maker with
  | SVSessionMaker m =>
      fun w =>
        let s := {| made_by := m; serial := length (trace w) |} in
        (extern (ECreate s) ;;; ret s) w
  | _ => raise (TypeError "object is not callable")
  end.

(** [await engine.dispose()] *)
Definition engine_dispose (engine : StateValue) : M World unit :=
  match engine with
  | SVEngine e => extern (EDispose e)
  | _ => raise (AttributeError "dispose")
  end.

Definition provide_engine (self : SQLAlchemyAsyncConfig) : M World StateValue :=
  state_get (engine_app_state_key self).

Definition provide_session (self : SQLAlchemyAsyncConfig) : M World Session :=
  session <~ get_litestar_scope_state SESSION_SCOPE_KEY ;;
  match session with
  | None =>
      session_maker <~ state_getitem (session_maker_app_state_key self) ;;
      session <~ call_session_maker session_maker ;;
      set_litestar_scope_state SESSION_SCOPE_KEY session ;;;
      ret session
  | Some session => ret session
  end.

Definition on_shutdown (self : SQLAlchemyAsyncConfig) : M World unit :=
  engine <~ state_pop (engine_app_state_key self) ;;
  engine_dispose engine.

(** [n] calls of [provide_session] one after the other, with their results. *)
Fixpoint provide_session_times (self : SQLAlchemyAsyncConfig) (n : nat)
    : M World (list Session) :=
  match n with
  | O => ret []
  | S n' =>
      s <~ provide_session self ;;
      rest <~ provide_session_times self n' ;;
      ret (s :: rest)
  end.

End Plugin.

End Litestar.

(** ** The repository service *)

Module Service.

(** Python values that occur as attribute values and identifiers. *)
Inductive Value : Type :=
| VNone
| VBool (b : bool)
| VInt (z : Z)
| VStr (s : string).

Definition is_none (v : Value) : bool :=
  match v with VNone => true | _ => false end.

(** An entity: an instance of a model class with its attributes. *)
Record Entity : Type := {
  entity_type : string;
  attributes : gmap string Value;
}.

(** Entities are mutable objects: they live in a heap and are passed by
    reference. *)
Abbreviation ref := nat (only parsing).

(** [getattr(item, name)]; an attribute that was never populated reads as
    [None]. *)
Definition getattr (item : Entity) (name : string) : Value :=
  default VNone (attributes item !! name).

Definition setattr (name : string) (v : Value) (item : Entity) : Entity :=
  {| entity_type := entity_type item;
     attributes := <[name := v]> (attributes item) |}.

(** [ModelT | dict[str, Any]] *)
Inductive Data : Type :=
| DModel (r : ref)
| DDict (d : gmap string Value).

(** [str | InstrumentedAttribute | None], without the [None]. *)
Inductive IdAttribute : Type :=
| IdName (name : string)
| IdInstrumented (description : string).

(** The calls the service makes on its repository. *)
Inductive RepoCall : Type :=
| RAdd (data : ref)
| RAddMany (data : list ref) (auto_commit auto_expunge : option bool)
| RUpdate (data : ref) (attribute_names : option (list string))
    (with_for_update auto_expunge auto_commit auto_refresh : option bool)
    (id_attribute : option string)
| RUpdateMany (data : list ref) (auto_commit auto_expunge : option bool)
| RUpsert (data : ref) (attribute_names : option (list string))
    (with_for_update auto_expunge auto_commit auto_refresh : option bool)
| RUpsertMany (data : list ref) (auto_expunge auto_commit : option bool)
    (no_merge : bool)
| RGetOrUpsert (match_fields : option (list string)) (upsert : bool)
    (attribute_names : option (list string))
    (with_for_update auto_commit auto_expunge auto_refresh : option bool)
    (kwargs : gmap string Value).

(** What a repository call returns. *)
Inductive Ret : Type :=
| RetModel (r : ref)
| RetModels (rs : list ref)
| RetPair (r : ref) (created : bool).

Record World : Type := {
  heap : gmap nat Entity;
  calls : list RepoCall;   (* repository calls made so far, oldest first *)
}.

Definition with_heap (f : gmap nat Entity -> gmap nat Entity) (w : World) : World :=
  {| heap := f (heap w); calls := calls w |}.

Section RepositoryService.

(** [self.repository.model_type], [self.repository.id_attribute] and the
    class attribute [match_fields]. *)
Variable model_type : string.
Variable id_attribute : string.
Variable self_match_fields : option (list string).

(** The repository and the store behind it: the outcome of a call, given the
    objects and the calls made before, and what it does to the objects. *)
Variable repository : RepoCall -> World -> Result Ret * gmap nat Entity.

Definition repository_call (c : RepoCall) : M World Ret :=
  fun w =>
    let '(r, h) := repository c w in
    (r, {| heap := h; calls := calls w ++ [c] |}).

(** Modelled from the spec: [model_from_dict] of
    [advanced_alchemy/repository/_util.py] is not among the sources.  It
    constructs an entity of the given type from the keys and values of the
    mapping; the entity is a new object. *)
Definition model_from_dict (model : string) (kwargs : gmap string Value) : M World ref :=
  fun w =>
    let r := fresh (dom (heap w)) in
    (Ok r, with_heap (insert r {| entity_type := model; attributes := kwargs |}) w).

(** Modelled from the spec: [get_id_attribute_value] of the repository class
    is not among the sources.  It reads the identifier attribute of the item,
    named by [id_attribute] when given and by the repository default
    otherwise. *)
Definition get_id_attribute_value (item : ref) (id_attr : option string) : M World Value :=
  gets (fun w =>
    match heap w !! item with
    | Some e => getattr e (default id_attribute id_attr)
    | None => VNone
    end).

(** Modelled from the spec: [set_id_attribute_value] of the repository class
    is not among the sources.  It sets the identifier attribute of the item
    (in place) and returns the item. *)
Definition set_id_attribute_value (item_id : Value) (item : ref) (id_attr : option string)
    : M World ref :=
  modify (with_heap (alter (setattr (default id_attribute id_attr) item_id) item)) ;;;
  ret item.

(** Modelled from the spec: [to_dict] of the model base class is not among
    the sources.  It expands an entity into the mapping of its attributes. *)
Definition to_dict (item : ref) : M World (gmap string Value) :=
  gets (fun w =>
    match heap w !! item with
    | Some e => attributes e
    | None => ∅
    end).

(** *** [SQLAlchemyAsyncRepositoryReadService] *)

Definition to_model (data : Data) (operation : option string) : M World ref :=
  match data with
  | DDict d => model_from_dict model_type d
  | DModel r => ret r
  end.

(** [[(await self.to_model(datum, op)) for datum in data]] *)
Fixpoint to_models (data : list Data) (operation : option string) : M World (list ref) :=
  match data with
  | [] => ret []
  | datum :: rest =>
      r <~ to_model datum operation ;;
      rs <~ to_models rest operation ;;
      ret (r :: rs)
  end.

(** *** [SQLAlchemyAsyncRepositoryService] *)

Definition create (data : Data) : M World Ret :=
  data <~ to_model data (Some "create") ;;
  repository_call (RAdd data).

Definition create_many (data : list Data) (auto_commit auto_expunge : option bool)
    : M World Ret :=
  data <~ to_models data (Some "create") ;;
  repository_call (RAddMany data auto_commit auto_expunge).

Definition identify_msg (name : string) : string :=
  "Could not identify ID attribute value.  One of the following is required: "
  +:+ "``item_id`` or ``data." +:+ name +:+ "``".

(** [id_attribute or self.repository.id_attribute]: the empty string is
    falsy. *)
Definition or_default (id_attr : option string) : string :=
  match id_attr with
  | Some name => if String.eqb name "" then id_attribute else name
  | None => id_attribute
  end.

Definition update (data : Data) (item_id : Value)
    (attribute_names : option (list string))
    (with_for_update auto_commit auto_expunge auto_refresh : option bool)
    (id_attr : option IdAttribute) : M World Ret :=
  data <~ to_model data (Some "update") ;;
  let id_attr :=
    match id_attr with
    | Some (IdInstrumented description) => Some description
    | Some (IdName name) => Some name
    | None => None
    end in
  unidentified <~
    (if is_none item_id then
       v <~ get_id_attribute_value data id_attr ;; ret (is_none v)
     else ret false) ;;
  if (unidentified : bool) then
    raise (RepositoryError (identify_msg (or_default id_attr)))
  else
    data <~
      (if negb (is_none item_id) then set_id_attribute_value item_id data id_attr
       else ret data) ;;
    repository_call
      (RUpdate data attribute_names with_for_update auto_expunge auto_commit
         auto_refresh id_attr).

Definition update_many (data : list Data) (auto_commit auto_expunge : option bool)
    : M World Ret :=
  data <~ to_models data (Some "update") ;;
  repository_call (RUpdateMany data auto_commit auto_expunge).

Definition upsert (data : Data) (item_id : Value)
    (attribute_names : option (list string))
    (with_for_update auto_expunge auto_commit auto_refresh : option bool)
    : M World Ret :=
  data <~ to_model data (Some "upsert") ;;
  set_id_attribute_value item_id data None ;;;
  repository_call
    (RUpsert data attribute_names with_for_update auto_expunge auto_commit
       auto_refresh).

Definition upsert_many (data : list Data) (auto_expunge auto_commit : option bool)
    (no_merge : bool) : M World Ret :=
  data <~ to_models data (Some "upsert") ;;
  repository_call (RUpsertMany data auto_expunge auto_commit no_merge).

(** [match_fields or self.match_fields]: [None] and the empty list are
    falsy. *)
Definition match_fields_or (match_fields : option (list string)) : option (list string) :=
  match match_fields with
  | Some (f :: fs) => Some (f :: fs)
  | _ => self_match_fields
  end.

Definition get_or_upsert (match_fields : option (list string)) (upsert : bool)
    (attribute_names : option (list string))
    (with_for_update auto_commit auto_expunge auto_refresh : option bool)
    (kwargs : gmap string Value) : M World Ret :=
  let match_fields := match_fields_or match_fields in
  validated_model <~ to_model (DDict kwargs) (Some "create") ;;
  fields <~ to_dict validated_model ;;
  repository_call
    (RGetOrUpsert match_fields upsert attribute_names with_for_update auto_commit
       auto_expunge auto_refresh fields).

(** [converted w w1 datum r]: between the worlds [w] and [w1] the input
    [datum] became the entity [r]: the input entity itself, or a new entity of
    the bound model type that holds the keys and values of the mapping. *)
Definition converted (w w1 : World) (datum : Data) (r : ref) : Prop :=
  match datum with
  | DModel r' => r = r'
  | DDict d =>
      (r ∉ dom (heap w))
      /\ (heap w1 !! r = Some {| entity_type := model_type; attributes := d |})
  end.

End RepositoryService.

(** An entity given as input is an object of the heap. *)
Definition live (w : World) (data : Data) : Prop :=
  match data with
  | DModel r => is_Some (heap w !! r)
  | DDict _ => True
  end.

End Service.

(** ** Sample values

    The event names are those of ASGI; the sample worlds hold one engine, one
    session maker and at most one session. *)

Module Samples.

Import Litestar.

Definition scope_key : string := "_sqlalchemy_db_session".
Definition response_start : string := "http.response.start".
Definition terminus : gset string :=
  {[ "http.response.start"; "http.disconnect"; "websocket.disconnect";
     "websocket.close" ]}.

Definition no_fault : Event -> list Event -> option Exception := fun _ _ => None.

(** Every commit fails. *)
Definition commit_fails : Event -> list Event -> option Exception :=
  fun ev _ => match ev with ECommit _ => Some (External 1) | _ => None end.

Definition session0 : Session := {| made_by := 0; serial := 0 |}.

Definition start_message (status : Z) : Message :=
  {| msg_type := response_start; msg_status := Some status |}.

Definition app0 : gmap string StateValue :=
  {[ "db_engine" := SVEngine 0; "session_maker_class" := SVSessionMaker 0 ]}.

(** A request that has not asked for a session yet. *)
Definition world_idle : World :=
  {| app_state := app0; scope_state := ∅; trace := [] |}.

(** A request whose session is open. *)
Definition world_open : World :=
  {| app_state := app0;
     scope_state := {[ scope_key := session0 ]};
     trace := [ECreate session0] |}.

Definition default_handler : Message -> M World unit :=
  handler scope_key terminus response_start no_fault (200, 300) ∅ ∅.

Definition redirect_handler : Message -> M World unit :=
  handler scope_key terminus response_start no_fault (200, 400) ∅ ∅.

Definition failing_handler : Message -> M World unit :=
  handler scope_key terminus response_start commit_fails (200, 300) ∅ ∅.

Import Service.

(** A repository that hands back what it is given and leaves the objects
    alone. *)
Definition echo_repository (c : RepoCall) (w : Service.World)
    : Result Ret * gmap nat Entity :=
  (match c with
   | RAdd r | RUpdate r _ _ _ _ _ _ | RUpsert r _ _ _ _ _ => Ok (RetModel r)
   | RAddMany rs _ _ | RUpdateMany rs _ _ | RUpsertMany rs _ _ _ => Ok (RetModels rs)
   | RGetOrUpsert _ _ _ _ _ _ _ _ => Ok (RetPair 0 true)
   end, heap w).

Definition author : Entity :=
  {| entity_type := "BigIntAuthor";
     attributes := {[ "id" := VInt 5; "name" := VStr "Agatha" ]} |}.

Definition store0 : Service.World :=
  {| heap := {[ 0%nat := author ]}; calls := [] |}.

End Samples.

(** ** Application state set-up

    [create_session_maker], [create_app_state_items] and [update_app_state]
    of the plugin configuration. *)

Module Setup.

Import Litestar.

(** What these methods read of the configuration base class: the
    [session_maker] field ([None] unless a session maker was configured) and
    the keyword arguments [session_config_dict] gives for the session maker
    class. *)
Record SessionSettings : Type := {
  session_maker : option nat;
  session_config_dict : gmap string StateValue;
}.

Definition result_bind {A B} (r : Result A) (k : A -> Result B) : Result B :=
  match r with
  | Ok a => k a
  | Raise e => Raise e
  end.

Definition is_state_none (v : StateValue) : bool :=
  match v with SVNone => true | _ => false end.

Section Setup.

(** [self.get_engine()] and [self.session_maker_class], called with keyword
    arguments, of the configuration base class: the engine of the
    configuration, and the session maker made from the keyword arguments, or
    what they raise. *)
Variable get_engine : Result nat.
Variable session_maker_class : gmap string StateValue -> Result nat.

Definition create_session_maker (self : SessionSettings) : Result nat :=
  match session_maker self with
  | Some configured => Ok configured
  | None =>
      let session_kws := session_config_dict self in
      result_bind
        (if is_state_none (default SVNone (session_kws !! "bind")) then
           result_bind get_engine
             (fun engine => Ok (<["bind" := SVEngine engine]> session_kws))
         else Ok session_kws)
        session_maker_class
  end.

(** The dictionary display: the second entry wins when the keys are equal. *)
Definition create_app_state_items (self : SQLAlchemyAsyncConfig)
    (settings : SessionSettings) : Result (gmap string StateValue) :=
  result_bind get_engine (fun engine =>
  result_bind (create_session_maker settings) (fun made =>
  Ok (<[session_maker_app_state_key self := SVSessionMaker made]>
        (<[engine_app_state_key self := SVEngine engine]> ∅)))).

(** [app.state.update(items)] *)
Definition update_app_state (self : SQLAlchemyAsyncConfig)
    (settings : SessionSettings) : M World unit :=
  fun w =>
    match create_app_state_items self settings with
    | Ok items => (Ok tt, with_app_state (fun st => items ∪ st) w)
    | Raise e => (Raise e, w)
    end.

End Setup.

End Setup.

(** ** [find_filter] of the read service *)

Module Filters.

Section FindFilter.

(** Filter objects, filter classes and [isinstance(filter_, filter_type)]. *)
Variable Filter : Type.
Variable FilterType : Type.
Variable isinstance : Filter -> FilterType -> bool.

(** [next((f for f in filters if isinstance(f, filter_type)), None)] *)
Fixpoint find_filter (filter_type : FilterType) (filters : list Filter)
    : option Filter :=
  match filters with
  | [] => None
  | filter_ :: rest =>
      if isinstance filter_ filter_type then Some filter_
      else find_filter filter_type rest
  end.

End FindFilter.

End Filters.

(** ** More sample values *)

Module MoreSamples.

Import Litestar Samples Setup.

(** A response-start message without a status. *)
Definition bare_start : Message :=
  {| msg_type := response_start; msg_status := None |}.

Definition body_message : Message :=
  {| msg_type := "http.response.body"; msg_status := None |}.

Definition disconnect_message : Message :=
  {| msg_type := "http.disconnect"; msg_status := None |}.

(** The session maker cannot make a session. *)
Definition create_fails : Event -> list Event -> option Exception :=
  fun ev _ => match ev with ECreate _ => Some (External 2) | _ => None end.

Definition world_bare : World :=
  {| app_state := ∅; scope_state := ∅; trace := [] |}.

(** Every close fails. *)
Definition close_fails : Event -> list Event -> option Exception :=
  fun ev _ => match ev with EClose _ => Some (External 2) | _ => None end.

(** Every commit fails, and every close fails with another exception. *)
Definition commit_and_close_fail : Event -> list Event -> option Exception :=
  fun ev _ =>
    match ev with
    | ECommit _ => Some (External 1)
    | EClose _ => Some (External 2)
    | _ => None
    end.

Definition plain_settings : SessionSettings :=
  {| session_maker := None; session_config_dict := ∅ |}.

Definition bound_settings : SessionSettings :=
  {| session_maker := None;
     session_config_dict := {[ "bind" := SVEngine 9; "expire_on_commit" := SVOther 0 ]} |}.

Definition preset_settings : SessionSettings :=
  {| session_maker := Some 4%nat; session_config_dict := ∅ |}.

(** The session maker class numbers its makers by the engine they are bound
    to. *)
Definition maker_of_bind (kws : gmap string StateValue) : Result nat :=
  match kws !! "bind" with
  | Some (SVEngine e) => Ok e
  | _ => Raise (TypeError "bind")
  end.

Definition same_key_config : SQLAlchemyAsyncConfig :=
  {| engine_dependency_key := "db_engine";
     session_dependency_key := "db_session";
     engine_app_state_key := "db";
     session_maker_app_state_key := "db" |}.

(** Filters: a number stands for a filter object, its remainder by three for
    its class. *)
Definition is_kind (f : nat) (kind : nat) : bool := Nat.eqb (f mod 3) kind.

End MoreSamples.

(** * Properties *)

(** ** The before-send handlers and the providers *)

Section LitestarProperties.

Import Litestar.

Variable SESSION_SCOPE_KEY : string.
Variable SESSION_TERMINUS_ASGI_EVENTS : gset string.
Variable HTTP_RESPONSE_START : string.
Variable fault : Event -> list Event -> option Exception.

Local Abbreviation maker :=
  (autocommit_handler_maker SESSION_SCOPE_KEY SESSION_TERMINUS_ASGI_EVENTS
     HTTP_RESPONSE_START fault).
Local Abbreviation made_handler :=
  (handler SESSION_SCOPE_KEY SESSION_TERMINUS_ASGI_EVENTS HTTP_RESPONSE_START fault).
Local Abbreviation closing := (close_and_clear SESSION_SCOPE_KEY SESSION_TERMINUS_ASGI_EVENTS fault).
Local Abbreviation deciding := (commit_or_rollback HTTP_RESPONSE_START fault).

Ltac run :=
  unfold made_handler, default_before_send_handler, close_and_clear,
    commit_or_rollback, message_status, get_litestar_scope_state,
    delete_litestar_scope_state, set_litestar_scope_state, extern,
    try_finally, bind, ret, raise, gets, modify in *; simpl in *.

(** The two status sets overlap exactly when the size test of the maker
    succeeds. *)
Lemma overlap_size (A B : gset Z) :
  (0 < size (A ∩ B))%nat <-> exists x, x ∈ A /\ x ∈ B.
Proof.
  split.
  - intros Hpos. destruct (size_pos_elem_of _ Hpos) as [x Hx].
    exists x. set_solver.
  - intros [x [HA HB]].
    assert (Hne : size (A ∩ B) ≠ 0%nat).
    { apply size_non_empty_iff. set_solver. }
    lia.
Qed.

Lemma maker_ok_inv cor ec er h :
  maker cor ec er = Ok h ->
  h = made_handler (200, if cor then 400 else 300) (default ∅ ec) (default ∅ er).
Proof.
  unfold autocommit_handler_maker. case_bool_decide; [discriminate |].
  intros [= <-]. by destruct cor.
Qed.

(** The decision of the handler, as a proposition. *)
Lemma decision_spec (stop : Z) (A B : gset Z) (status : Z) :
  (in_range 200 stop status || bool_decide (status ∈ A))
    && negb (bool_decide (status ∈ B)) = true
  <-> ((200 <= status < stop) \/ status ∈ A) /\ status ∉ B.
Proof.
  unfold in_range.
  rewrite andb_true_iff, orb_true_iff, andb_true_iff, negb_true_iff,
    bool_decide_eq_false, !bool_decide_eq_true, Z.leb_le, Z.ltb_lt.
  tauto.
Qed.

(** What the [try] block does on a response-start message that carries a
    status, with a session in scope: one commit or one rollback. *)
Lemma deciding_response_start rng A B s message status w :
  msg_type message = HTTP_RESPONSE_START ->
  msg_status message = Some status ->
  deciding rng A B (Some s) message w =
    extern fault
      (if (in_range rng.1 rng.2 status || bool_decide (status ∈ A))
          && negb (bool_decide (status ∈ B))
       then ECommit s else ERollback s) w.
Proof.
  intros Ht Hs. unfold commit_or_rollback, message_status, bind, ret.
  rewrite Ht, String.eqb_refl, Hs.
  by destruct (_ && _).
Qed.

(** The [finally] block appends at most a close of the session in scope. *)
Lemma closing_trace s message w :
  trace (closing (Some s) message w).2 =
    trace w ++
      (if bool_decide (msg_type message ∈ SESSION_TERMINUS_ASGI_EVENTS)
       then [EClose s] else []).
Proof.
  run. case_bool_decide; simpl; [| by rewrite app_nil_r].
  destruct (fault _ _); simpl; [done |].
  by destruct (scope_state w !! SESSION_SCOPE_KEY).
Qed.

Lemma extern_trace ev w : trace (extern fault ev w).2 = trace w ++ [ev].
Proof. unfold extern. by destruct (fault _ _). Qed.

Lemma try_finally_snd {A} (body : M World A) (cleanup : M World unit) w :
  (try_finally body cleanup w).2 = (cleanup (body w).2).2.
Proof.
  unfold try_finally. destruct (body w) as [r w1]; simpl.
  by destruct (cleanup w1) as [[[]|e] w2].
Qed.

Lemma handler_unfold rng A B message w :
  made_handler rng A B message w =
    try_finally (deciding rng A B (scope_state w !! SESSION_SCOPE_KEY) message)
      (closing (scope_state w !! SESSION_SCOPE_KEY) message) w.
Proof. reflexivity. Qed.

(** C1.  A handler made by [autocommit_handler_maker], called with a
    response-start message while a session is stored in the scope state,
    commits the session exactly when the status is in 200..299 (200..399 with
    [commit_on_redirect]) or in the extra commit statuses, and is not in the
    extra rollback statuses; in every other case it rolls the session back.
    The commit or rollback is the only one the call makes: after it the trace
    holds at most the close of the session. *)
Theorem autocommit_handler_commits_iff
    (commit_on_redirect : bool) (extra_commit extra_rollback : option (gset Z))
    (h : Message -> M World unit) (message : Message) (status : Z)
    (s : Session) (w : World) :
  maker commit_on_redirect extra_commit extra_rollback = Ok h ->
  msg_type message = HTTP_RESPONSE_START ->
  msg_status message = Some status ->
  scope_state w !! SESSION_SCOPE_KEY = Some s ->
  let commit_worthy :=
    ((200 <= status < (if commit_on_redirect then 400 else 300))
     \/ status ∈ default ∅ extra_commit)
    /\ status ∉ default ∅ extra_rollback in
  let close :=
    if bool_decide (HTTP_RESPONSE_START ∈ SESSION_TERMINUS_ASGI_EVENTS)
    then [EClose s] else [] in
  (commit_worthy <-> trace (h message w).2 = trace w ++ ECommit s :: close)
  /\ (~ commit_worthy <-> trace (h message w).2 = trace w ++ ERollback s :: close).
Proof.
  intros Hmk Ht Hst Hs commit_worthy close.
  apply maker_ok_inv in Hmk. subst h.
  rewrite handler_unfold, Hs, try_finally_snd, closing_trace.
  rewrite (deciding_response_start _ _ _ _ _ status) by done.
  rewrite extern_trace, Ht, <- app_assoc. simpl. fold close.
  pose proof (decision_spec (if commit_on_redirect then 400 else 300)
                (default ∅ extra_commit) (default ∅ extra_rollback) status) as Hd.
  fold commit_worthy in Hd.
  destruct ((in_range _ _ _ || _) && _) eqn:E.
  - assert (commit_worthy) by (by apply Hd).
    split; split; try done.
    intros Heq. apply app_inv_head in Heq. discriminate.
  - assert (~ commit_worthy) by (intros Hc; apply Hd in Hc; discriminate).
    split; split; try done.
    intros Heq. apply app_inv_head in Heq. discriminate.
Qed.

(** C3.  [autocommit_handler_maker] raises, when the handler is made, exactly
    when the extra commit statuses and the extra rollback statuses share a
    status; with disjoint sets, and whenever one of the sets is left out, it
    returns the handler. *)
Theorem autocommit_handler_maker_raises_iff_overlap
    (commit_on_redirect : bool) (extra_commit extra_rollback : option (gset Z)) :
  let A := default ∅ extra_commit in
  let B := default ∅ extra_rollback in
  ((exists x, x ∈ A /\ x ∈ B) <->
     maker commit_on_redirect extra_commit extra_rollback
       = Raise (ValueError overlap_msg))
  /\ ((exists x, x ∈ A /\ x ∈ B) <->
        exists e, maker commit_on_redirect extra_commit extra_rollback = Raise e)
  /\ (~ (exists x, x ∈ A /\ x ∈ B) <->
        maker commit_on_redirect extra_commit extra_rollback
          = Ok (made_handler (200, if commit_on_redirect then 400 else 300) A B))
  /\ (~ (exists x, x ∈ A /\ x ∈ B) <->
        exists h, maker commit_on_redirect extra_commit extra_rollback = Ok h)
  /\ (extra_commit = None \/ extra_rollback = None ->
        exists h, maker commit_on_redirect extra_commit extra_rollback = Ok h).
Proof.
  intros A B.
  assert (Hcases :
    ((exists x, x ∈ A /\ x ∈ B) /\
       maker commit_on_redirect extra_commit extra_rollback
         = Raise (ValueError overlap_msg))
    \/ (~ (exists x, x ∈ A /\ x ∈ B) /\
          maker commit_on_redirect extra_commit extra_rollback
            = Ok (made_handler (200, if commit_on_redirect then 400 else 300) A B))).
  { unfold autocommit_handler_maker. fold A B. case_bool_decide as Hsz.
    - left. split; [by apply overlap_size | done].
    - right. split; [by rewrite <- overlap_size |]. by destruct commit_on_redirect. }
  assert (Hnone : extra_commit = None \/ extra_rollback = None ->
                  ~ (exists x, x ∈ A /\ x ∈ B)).
  { intros [-> | ->] [x [HA HB]]; subst A B; simpl in *; set_solver. }
  destruct Hcases as [[Hov Heq] | [Hno Heq]]; rewrite Heq.
  - split; [by split |]. split; [split; [by eexists | done] |].
    split; [split; [done | discriminate] |].
    split; [split; [done | by intros [h' ?]] |].
    intros Hn. by destruct (Hnone Hn).
  - split; [split; [done | discriminate] |].
    split; [split; [done | by intros [e ?]] |].
    split; [by split |]. split; [split; [by eexists | done] |].
    intros _. by eexists.
Qed.

(** C2.  A handler made by [autocommit_handler_maker], called with a session
    in the scope state and a message whose type is a session-terminus event,
    always ends by closing the session, also when the commit or the rollback
    raised.  When the close returns, the session key is gone from the scope
    state, and an exception raised by the commit or the rollback is the
    exception the handler raises. *)
Theorem autocommit_handler_cleanup_guaranteed
    (commit_on_redirect : bool) (extra_commit extra_rollback : option (gset Z))
    (h : Message -> M World unit) (message : Message) (s : Session) (w : World) :
  maker commit_on_redirect extra_commit extra_rollback = Ok h ->
  scope_state w !! SESSION_SCOPE_KEY = Some s ->
  msg_type message ∈ SESSION_TERMINUS_ASGI_EVENTS ->
  exists before_close,
    trace (h message w).2 = before_close ++ [EClose s]
    /\ (fault (EClose s) before_close = None ->
        scope_state (h message w).2 = delete SESSION_SCOPE_KEY (scope_state w)
        /\ scope_state (h message w).2 !! SESSION_SCOPE_KEY = None
        /\ forall ev e,
             ev = ECommit s \/ ev = ERollback s ->
             before_close = trace w ++ [ev] ->
             fault ev (trace w) = Some e ->
             (h message w).1 = Raise e).
Proof.
  intros Hmk Hs Hterm. apply maker_ok_inv in Hmk. subst h.
  rewrite handler_unfold, Hs.
  set (body := deciding _ _ _ (Some s) message).
  exists (trace (body w).2).
  assert (Hscope : scope_state (body w).2 = scope_state w).
  { subst body. run. destruct (String.eqb _ _); [| done].
    destruct (msg_status message); [| done].
    destruct (_ && _); simpl; by destruct (fault _ _). }
  assert (Hbody : forall ev e,
            ev = ECommit s \/ ev = ERollback s ->
            trace (body w).2 = trace w ++ [ev] ->
            fault ev (trace w) = Some e -> (body w).1 = Raise e).
  { intros ev e Hev Htr Hf. subst body. run.
    destruct (String.eqb _ _);
      [| simpl in Htr; apply (f_equal length) in Htr;
         rewrite length_app in Htr; simpl in Htr; lia].
    destruct (msg_status message);
      [| simpl in Htr; apply (f_equal length) in Htr;
         rewrite length_app in Htr; simpl in Htr; lia].
    destruct (_ && _); simpl in *.
    - assert (ev = ECommit s) as ->.
      { destruct (fault (ECommit s) _); simpl in Htr;
          apply app_inv_head in Htr; congruence. }
      by rewrite Hf.
    - assert (ev = ERollback s) as ->.
      { destruct (fault (ERollback s) _); simpl in Htr;
          apply app_inv_head in Htr; congruence. }
      by rewrite Hf. }
  unfold try_finally. destruct (body w) as [r w1] eqn:Eb. simpl in *.
  unfold close_and_clear. rewrite bool_decide_eq_true_2 by done.
  unfold bind, extern, delete_litestar_scope_state. simpl.
  destruct (fault (EClose s) (trace w1)) eqn:Ef; simpl.
  - split; [done | intros [=]].
  - rewrite Hscope, Hs. simpl. split; [done |]. intros _.
    rewrite Hscope. split; [done |]. split; [apply lookup_delete_eq |].
    intros ev e Hev Htr Hf. by apply (Hbody ev e).
Qed.

(** C6.  [default_before_send_handler] closes the session and removes it from
    the scope state when a session is stored and the message type is a
    session-terminus event (the removal follows the close, when the close
    returns); for any other message, and when no session is stored, it
    changes nothing.  It never commits and never rolls back: the only call it
    can add to the trace is the close of the stored session. *)
Theorem default_before_send_handler_closes_iff (message : Message) (w : World) :
  let after :=
    default_before_send_handler SESSION_SCOPE_KEY SESSION_TERMINUS_ASGI_EVENTS
      fault message w in
  (forall s,
     scope_state w !! SESSION_SCOPE_KEY = Some s ->
     msg_type message ∈ SESSION_TERMINUS_ASGI_EVENTS ->
     trace after.2 = trace w ++ [EClose s]
     /\ app_state after.2 = app_state w
     /\ (fault (EClose s) (trace w) = None ->
         after.1 = Ok tt
         /\ scope_state after.2 = delete SESSION_SCOPE_KEY (scope_state w)
         /\ scope_state after.2 !! SESSION_SCOPE_KEY = None))
  /\ (scope_state w !! SESSION_SCOPE_KEY = None
      \/ msg_type message ∉ SESSION_TERMINUS_ASGI_EVENTS ->
      after = (Ok tt, w))
  /\ (forall s, ECommit s ∈ trace after.2 -> ECommit s ∈ trace w)
  /\ (forall s, ERollback s ∈ trace after.2 -> ERollback s ∈ trace w).
Proof.
  intros after. subst after.
  unfold default_before_send_handler, get_litestar_scope_state, gets, bind.
  simpl. split; [| split].
  - intros s Hs Hterm. rewrite Hs. unfold close_and_clear.
    rewrite bool_decide_eq_true_2 by done.
    unfold bind, extern, delete_litestar_scope_state. simpl.
    destruct (fault (EClose s) (trace w)) eqn:Ef; simpl.
    + repeat split; try done.
    + rewrite Hs. simpl. repeat split; try done. apply lookup_delete_eq.
  - intros [Hnone | Hnt].
    + by rewrite Hnone.
    + destruct (scope_state w !! SESSION_SCOPE_KEY); [| done].
      unfold close_and_clear. by rewrite bool_decide_eq_false_2.
  - assert (Htr : exists new,
              trace (closing (scope_state w !! SESSION_SCOPE_KEY) message w).2
                = trace w ++ new
              /\ forall ev, ev ∈ new -> exists s, ev = EClose s).
    { destruct (scope_state w !! SESSION_SCOPE_KEY) as [s|] eqn:Hs.
      - rewrite closing_trace. eexists. split; [done |].
        intros ev. case_bool_decide; [| by intros ?%elem_of_nil].
        intros ->%list_elem_of_singleton. by exists s.
      - exists []. simpl. rewrite app_nil_r. split; [done |].
        by intros ev ?%elem_of_nil. }
    destruct Htr as [new [-> Hnew]].
    split; intros s [Hin | Hin]%elem_of_app; try done;
      destruct (Hnew _ Hin) as [s' [=]].
Qed.

(** C5.  The first call of [provide_session] in a request scope makes a
    session with the session maker stored in the application state and
    stores it under the session scope key; every later call made while a
    session is stored in the scope returns the stored session and makes
    none.  Any number of calls in a row leave exactly one session made. *)
Theorem provide_session_once
    (self : SQLAlchemyAsyncConfig) (maker_id : nat) (w : World) (n : nat) :
  scope_state w !! SESSION_SCOPE_KEY = None ->
  app_state w !! session_maker_app_state_key self = Some (SVSessionMaker maker_id) ->
  let s := {| made_by := maker_id; serial := length (trace w) |} in
  fault (ECreate s) (trace w) = None ->
  let w1 := {| app_state := app_state w;
               scope_state := <[SESSION_SCOPE_KEY := s]> (scope_state w);
               trace := trace w ++ [ECreate s] |} in
  provide_session SESSION_SCOPE_KEY fault self w = (Ok s, w1)
  /\ (forall w' s',
        scope_state w' !! SESSION_SCOPE_KEY = Some s' ->
        provide_session SESSION_SCOPE_KEY fault self w' = (Ok s', w'))
  /\ provide_session_times SESSION_SCOPE_KEY fault self (S n) w
       = (Ok (replicate (S n) s), w1).
Proof.
  intros Hnone Hmk s Hok w1.
  assert (Hfirst : provide_session SESSION_SCOPE_KEY fault self w = (Ok s, w1)).
  { unfold provide_session, get_litestar_scope_state, state_getitem,
      call_session_maker, set_litestar_scope_state, extern, bind, gets, modify, ret.
    simpl. rewrite Hnone, Hmk. simpl. fold s. by rewrite Hok. }
  assert (Hlater : forall w' s',
            scope_state w' !! SESSION_SCOPE_KEY = Some s' ->
            provide_session SESSION_SCOPE_KEY fault self w' = (Ok s', w')).
  { intros w' s' Hs'. unfold provide_session, get_litestar_scope_state, bind, gets.
    simpl. by rewrite Hs'. }
  split; [done |]. split; [done |].
  assert (Hrep : forall k,
            provide_session_times SESSION_SCOPE_KEY fault self k w1
              = (Ok (replicate k s), w1)).
  { induction k as [| k IH]; [done |].
    simpl. unfold bind at 1. rewrite (Hlater w1 s) by apply lookup_insert_eq.
    unfold bind at 1. by rewrite IH. }
  simpl. unfold bind at 1. rewrite Hfirst. unfold bind at 1. by rewrite Hrep.
Qed.

(** C9.  [on_shutdown] takes the engine stored under the engine key out of
    the application state and disposes it: after the call the key is absent
    and the trace holds one more dispose of that engine.  A second call
    raises [KeyError] on the missing key and disposes nothing. *)
Theorem on_shutdown_disposes_once
    (self : SQLAlchemyAsyncConfig) (engine : nat) (w : World) :
  app_state w !! engine_app_state_key self = Some (SVEngine engine) ->
  let after := on_shutdown fault self w in
  app_state after.2 = delete (engine_app_state_key self) (app_state w)
  /\ app_state after.2 !! engine_app_state_key self = None
  /\ trace after.2 = trace w ++ [EDispose engine]
  /\ (fault (EDispose engine) (trace w) = None -> after.1 = Ok tt)
  /\ on_shutdown fault self after.2
       = (Raise (KeyError (engine_app_state_key self)), after.2).
Proof.
  intros Hst after. subst after.
  unfold on_shutdown, state_pop, engine_dispose, extern, bind. simpl.
  rewrite Hst. simpl.
  destruct (fault (EDispose engine) (trace w)); simpl;
    rewrite lookup_delete_eq; repeat split; try done.
Qed.

(** C10.  [provide_engine] returns what the application state holds under the
    engine key; when nothing is stored there it returns [None] and does not
    raise.  It changes nothing. *)
Theorem provide_engine_returns_stored_or_none
    (self : SQLAlchemyAsyncConfig) (w : World) :
  (forall v,
     app_state w !! engine_app_state_key self = Some v ->
     provide_engine self w = (Ok v, w))
  /\ (app_state w !! engine_app_state_key self = None ->
      provide_engine self w = (Ok SVNone, w)).
Proof.
  unfold provide_engine, state_get, gets.
  split; [intros v Hv | intros Hv]; by rewrite Hv.
Qed.

End LitestarProperties.

(** ** The repository service *)

Section ServiceProperties.

Import Service.

Variable model_type : string.
Variable id_attribute : string.
Variable self_match_fields : option (list string).
Variable repository : RepoCall -> World -> Result Ret * gmap nat Entity.

Local Abbreviation call := (repository_call repository).
Local Abbreviation convert := (to_model model_type).
Local Abbreviation convert_all := (to_models model_type).
Local Abbreviation converted := (Service.converted model_type).

Lemma to_model_entity r op w : convert (DModel r) op w = (Ok r, w).
Proof. reflexivity. Qed.

Lemma to_model_mapping d op w :
  let r := fresh (dom (heap w)) in
  (r ∉ dom (heap w))
  /\ convert (DDict d) op w =
       (Ok r, with_heap (insert r {| entity_type := model_type; attributes := d |}) w).
Proof. split; [apply is_fresh | reflexivity]. Qed.

(** [to_model] always returns; it sends nothing to the repository and keeps
    the objects that exist. *)
Lemma to_model_spec datum op w :
  exists r w1,
    convert datum op w = (Ok r, w1)
    /\ calls w1 = calls w
    /\ heap w ⊆ heap w1
    /\ converted w w1 datum r.
Proof.
  destruct datum as [r | d].
  - exists r, w. by repeat split.
  - destruct (to_model_mapping d op w) as [Hfresh Heq].
    eexists _, _. split; [exact Heq |]. simpl. split; [done |]. split.
    + apply insert_subseteq. by apply not_elem_of_dom.
    + split; [done | apply lookup_insert_eq].
Qed.

Lemma converted_mono w w1 w2 datum r :
  heap w1 ⊆ heap w2 -> converted w w1 datum r -> converted w w2 datum r.
Proof.
  intros Hsub. destruct datum as [r' | d]; [done |].
  intros [Hfresh Hl]. split; [done |].
  by eapply lookup_weaken.
Qed.

Lemma converted_anti w w' w1 datum r :
  heap w ⊆ heap w' -> converted w' w1 datum r -> converted w w1 datum r.
Proof.
  intros Hsub. destruct datum as [r' | d]; [done |].
  intros [Hfresh Hl]. split; [| done].
  intros Hin. apply Hfresh. apply elem_of_dom. apply elem_of_dom in Hin.
  destruct Hin as [e He]. exists e. by eapply lookup_weaken.
Qed.

(** The list comprehension converts every element, in order. *)
Lemma to_models_spec data op w :
  exists rs w1,
    convert_all data op w = (Ok rs, w1)
    /\ calls w1 = calls w
    /\ heap w ⊆ heap w1
    /\ Forall2 (converted w w1) data rs.
Proof.
  revert w. induction data as [| datum rest IH]; intros w.
  - exists [], w. by repeat split.
  - destruct (to_model_spec datum op w) as (r & w1 & Hr & Hc1 & Hh1 & Hconv).
    destruct (IH w1) as (rs & w2 & Hrs & Hc2 & Hh2 & Hall).
    exists (r :: rs), w2. simpl. unfold bind at 1. rewrite Hr.
    unfold bind at 1. rewrite Hrs. split; [done |].
    split; [congruence |]. split; [by etrans |].
    constructor.
    + by eapply converted_mono.
    + eapply Forall2_impl; [exact Hall |].
      intros datum' r'. by apply converted_anti.
Qed.

(** [id_attribute], once an [InstrumentedAttribute] is replaced by its
    description. *)
Local Abbreviation attr_name id_attr :=
  (match id_attr with
   | Some (IdInstrumented description) => Some description
   | Some (IdName name) => Some name
   | None => None
   end).

(** How [update] runs after the conversion of its input. *)
Lemma update_after_conversion data item_id names wfu ac ae ar id_attr w r w1 :
  convert data (Some "update") w = (Ok r, w1) ->
  let name := default id_attribute (attr_name id_attr) in
  let current :=
    match heap w1 !! r with Some e => getattr e name | None => VNone end in
  update model_type id_attribute repository data item_id names wfu ac ae ar id_attr w
  = if is_none item_id && is_none current then
      (Raise (RepositoryError (identify_msg (or_default id_attribute (attr_name id_attr)))),
       w1)
    else
      call (RUpdate r names wfu ae ac ar (attr_name id_attr))
        (if is_none item_id then w1
         else with_heap (alter (setattr name item_id) r) w1).
Proof.
  intros Hconv name current. unfold update. unfold bind at 1. rewrite Hconv.
  destruct (is_none item_id) eqn:Hid; simpl.
  - unfold bind, get_id_attribute_value, gets, ret, raise. simpl.
    fold name. fold current. by destruct (is_none current).
  - unfold bind, set_id_attribute_value, modify, ret. simpl. done.
Qed.

Lemma is_none_true v : is_none v = true <-> v = VNone.
Proof. destruct v; simpl; split; congruence. Qed.

Lemma call_calls c w : calls (call c w).2 = calls w ++ [c].
Proof. unfold repository_call. by destruct (repository c w). Qed.




End ServiceProperties.

(** ** Worked cases *)

Import Litestar Samples.

(** With the default configuration a 201 commits, a 404 and a 301 roll back;
    with [commit_on_redirect] a 301 commits. *)
Lemma autocommit_handler_commits_iff_witness :
  (trace (default_handler (start_message 201) world_open).2
   = trace world_open ++ ECommit session0
       :: (if bool_decide (response_start ∈ terminus) then [EClose session0] else []))
  /\ (trace (default_handler (start_message 404) world_open).2
      = trace world_open ++ ERollback session0
          :: (if bool_decide (response_start ∈ terminus) then [EClose session0] else []))
  /\ (trace (default_handler (start_message 301) world_open).2
      = trace world_open ++ ERollback session0
          :: (if bool_decide (response_start ∈ terminus) then [EClose session0] else []))
  /\ (trace (redirect_handler (start_message 301) world_open).2
      = trace world_open ++ ECommit session0
          :: (if bool_decide (response_start ∈ terminus) then [EClose session0] else [])).
Proof.
  split; [| split; [| split]].
  - apply (autocommit_handler_commits_iff scope_key terminus response_start
             no_fault false None None default_handler (start_message 201) 201
             session0 world_open);
      [reflexivity | reflexivity | reflexivity | reflexivity |].
    split; [left; simpl; lia | vm_compute; set_solver].
  - apply (autocommit_handler_commits_iff scope_key terminus response_start
             no_fault false None None default_handler (start_message 404) 404
             session0 world_open);
      [reflexivity | reflexivity | reflexivity | reflexivity |].
    intros [[H | H] _]; [simpl in H; lia | vm_compute in H; set_solver].
  - apply (autocommit_handler_commits_iff scope_key terminus response_start
             no_fault false None None default_handler (start_message 301) 301
             session0 world_open);
      [reflexivity | reflexivity | reflexivity | reflexivity |].
    intros [[H | H] _]; [simpl in H; lia | vm_compute in H; set_solver].
  - apply (autocommit_handler_commits_iff scope_key terminus response_start
             no_fault true None None redirect_handler (start_message 301) 301
             session0 world_open);
      [reflexivity | reflexivity | reflexivity | reflexivity |].
    split; [left; simpl; lia | vm_compute; set_solver].
Defined.

(** The run behind the first case above, in full. *)
Example default_handler_201 :
  default_handler (start_message 201) world_open
  = (Ok tt,
     {| app_state := app0; scope_state := ∅;
        trace := [ECreate session0; ECommit session0; EClose session0] |}).
Proof. vm_compute. reflexivity. Qed.

(** A commit that fails: the session is closed and cleared all the same, and
    the handler raises what the commit raised. *)
Example failing_handler_201 :
  failing_handler (start_message 201) world_open
  = (Raise (External 1),
     {| app_state := app0; scope_state := ∅;
        trace := [ECreate session0; ECommit session0; EClose session0] |}).
Proof. vm_compute. reflexivity. Qed.

Lemma autocommit_handler_cleanup_guaranteed_witness :
  exists before_close,
    trace (failing_handler (start_message 201) world_open).2
      = before_close ++ [EClose session0]
    /\ (commit_fails (EClose session0) before_close = None ->
        scope_state (failing_handler (start_message 201) world_open).2
          = delete scope_key (scope_state world_open)
        /\ scope_state (failing_handler (start_message 201) world_open).2
             !! scope_key = None
        /\ forall ev e,
             ev = ECommit session0 \/ ev = ERollback session0 ->
             before_close = trace world_open ++ [ev] ->
             commit_fails ev (trace world_open) = Some e ->
             (failing_handler (start_message 201) world_open).1 = Raise e).
Proof.
  apply (autocommit_handler_cleanup_guaranteed scope_key terminus response_start
           commit_fails false None None failing_handler (start_message 201)
           session0 world_open);
    [reflexivity | reflexivity | vm_compute; set_solver].
Defined.

(** Three calls of [provide_session] in an idle request: one session made,
    returned three times. *)
Lemma provide_session_once_witness :
  provide_session scope_key no_fault default_config world_idle
    = (Ok session0, world_open)
  /\ (forall w' s',
        scope_state w' !! scope_key = Some s' ->
        provide_session scope_key no_fault default_config w' = (Ok s', w'))
  /\ provide_session_times scope_key no_fault default_config 3 world_idle
       = (Ok [session0; session0; session0], world_open).
Proof.
  apply (provide_session_once scope_key no_fault default_config 0 world_idle 2);
    reflexivity.
Defined.

(** Shutdown of the sample application, and a second shutdown. *)
Lemma on_shutdown_disposes_once_witness :
  let after := on_shutdown no_fault default_config world_open in
  app_state after.2 = delete "db_engine" (app_state world_open)
  /\ app_state after.2 !! "db_engine" = None
  /\ trace after.2 = trace world_open ++ [EDispose 0]
  /\ (no_fault (EDispose 0) (trace world_open) = None -> after.1 = Ok tt)
  /\ on_shutdown no_fault default_config after.2
       = (Raise (KeyError "db_engine"), after.2).
Proof.
  apply (on_shutdown_disposes_once no_fault default_config 0 world_open).
  reflexivity.
Defined.

Example on_shutdown_twice :
  (on_shutdown no_fault default_config ;;; on_shutdown no_fault default_config)
    world_open
  = (Raise (KeyError "db_engine"),
     {| app_state := {[ "session_maker_class" := SVSessionMaker 0 ]};
        scope_state := {[ scope_key := session0 ]};
        trace := [ECreate session0; EDispose 0] |}).
Proof. vm_compute. reflexivity. Qed.

Example provide_engine_missing :
  provide_engine default_config
    {| app_state := ∅; scope_state := ∅; trace := [] |}
  = (Ok SVNone, {| app_state := ∅; scope_state := ∅; trace := [] |}).
Proof. reflexivity. Qed.

Example maker_overlap :
  autocommit_handler_maker scope_key terminus response_start no_fault false
    (Some {[ 302; 404 ]}) (Some {[ 404; 500 ]})
  = Raise (ValueError overlap_msg).
Proof. vm_compute. reflexivity. Qed.

Example default_handler_ignores_body :
  default_before_send_handler scope_key terminus no_fault
    {| msg_type := "http.response.body"; msg_status := None |} world_open
  = (Ok tt, world_open).
Proof. vm_compute. reflexivity. Qed.

Example default_handler_closes_on_disconnect :
  default_before_send_handler scope_key terminus no_fault
    {| msg_type := "http.disconnect"; msg_status := None |} world_open
  = (Ok tt,
     {| app_state := app0; scope_state := ∅;
        trace := [ECreate session0; EClose session0] |}).
Proof. vm_compute. reflexivity. Qed.

Import Service.


Example upsert_overwrites_identifier :
  upsert "BigIntAuthor" "id" echo_repository (DModel 0) VNone None None None
    None None store0
  = (Ok (RetModel 0),
     {| heap :=
          {[ 0%nat :=
               {| entity_type := "BigIntAuthor";
                  attributes := {[ "id" := VNone; "name" := VStr "Agatha" ]} |} ]};
        calls := [RUpsert 0 None None None None None] |}).
Proof. vm_compute. reflexivity. Qed.

Example update_without_identifier :
  update "BigIntAuthor" "id" echo_repository
    (DDict {[ "name" := VStr "Agatha" ]}) VNone None None None None None None
    store0
  = (Raise (RepositoryError (identify_msg "id")),
     {| heap :=
          {[ 0%nat := author;
             1%nat :=
               {| entity_type := "BigIntAuthor";
                  attributes := {[ "name" := VStr "Agatha" ]} |} ]};
        calls := [] |}).
Proof. vm_compute. reflexivity. Qed.

Example update_with_item_id :
  (update "BigIntAuthor" "id" echo_repository
     (DDict {[ "name" := VStr "Agatha" ]}) (VInt 7) None None None None None None
     store0).1
  = Ok (RetModel 1).
Proof. vm_compute. reflexivity. Qed.

(** ** Further properties of the before-send handlers *)

Section HandlerProperties.

Import Litestar.

Variable SESSION_SCOPE_KEY : string.
Variable SESSION_TERMINUS_ASGI_EVENTS : gset string.
Variable HTTP_RESPONSE_START : string.
Variable fault : Event -> list Event -> option Exception.

Local Abbreviation made_handler :=
  (handler SESSION_SCOPE_KEY SESSION_TERMINUS_ASGI_EVENTS HTTP_RESPONSE_START fault).
Local Abbreviation default_handler_ :=
  (default_before_send_handler SESSION_SCOPE_KEY SESSION_TERMINUS_ASGI_EVENTS fault).
Local Abbreviation cleanup :=
  (close_and_clear SESSION_SCOPE_KEY SESSION_TERMINUS_ASGI_EVENTS fault).

(** A [try] whose body does nothing is its [finally] block. *)
Lemma try_finally_skip (c : M Litestar.World unit) w :
  try_finally (ret tt) c w = c w.
Proof.
  unfold try_finally, ret. destruct (c w) as [[[] | e] w2]; reflexivity.
Qed.

(** The autocommit handler, when no session is stored in the scope state,
    does nothing, whatever the message: it makes no call, raises nothing (not
    even for a response-start message without a status) and leaves the world
    as it is. *)
Theorem autocommit_handler_without_session
    (commit_range : Z * Z) (extra_commit extra_rollback : gset Z)
    (message : Message) (w : Litestar.World) :
  scope_state w !! SESSION_SCOPE_KEY = None ->
  made_handler commit_range extra_commit extra_rollback message w = (Ok tt, w).
Proof.
  intros Hnone.
  unfold handler, get_litestar_scope_state, gets, bind. simpl.
  rewrite Hnone. reflexivity.
Qed.

(** On a message that is not a response start the autocommit handler is the
    default handler: same outcome, same world. *)
Theorem autocommit_handler_is_default_off_response_start
    (commit_range : Z * Z) (extra_commit extra_rollback : gset Z)
    (message : Message) (w : Litestar.World) :
  msg_type message <> HTTP_RESPONSE_START ->
  made_handler commit_range extra_commit extra_rollback message w
  = default_handler_ message w.
Proof.
  intros Hne.
  unfold handler, default_before_send_handler, get_litestar_scope_state, gets,
    bind. simpl.
  destruct (scope_state w !! SESSION_SCOPE_KEY) as [s |]; [| reflexivity].
  unfold commit_or_rollback.
  apply String.eqb_neq in Hne. rewrite Hne.
  apply try_finally_skip.
Qed.

(** A response-start message without a status, with a session stored: the
    handler neither commits nor rolls back; the lookup of the status raises
    [KeyError], and the session is closed and cleared all the same when the
    message type is a terminus event. *)
Theorem autocommit_handler_missing_status
    (commit_range : Z * Z) (extra_commit extra_rollback : gset Z)
    (message : Message) (s : Session) (w : Litestar.World) :
  scope_state w !! SESSION_SCOPE_KEY = Some s ->
  msg_type message = HTTP_RESPONSE_START ->
  msg_status message = None ->
  let after := made_handler commit_range extra_commit extra_rollback message w in
  trace after.2
  = trace w ++
      (if bool_decide (HTTP_RESPONSE_START ∈ SESSION_TERMINUS_ASGI_EVENTS)
       then [EClose s] else [])
  /\ (HTTP_RESPONSE_START ∉ SESSION_TERMINUS_ASGI_EVENTS ->
      after = (Raise (KeyError "status"), w))
  /\ (HTTP_RESPONSE_START ∈ SESSION_TERMINUS_ASGI_EVENTS ->
      fault (EClose s) (trace w) = None ->
      after.1 = Raise (KeyError "status")
      /\ scope_state after.2 = delete SESSION_SCOPE_KEY (scope_state w)).
Proof.
  intros Hs Ht Hst after. subst after.
  unfold handler, get_litestar_scope_state, gets, bind. simpl. rewrite Hs.
  unfold commit_or_rollback, message_status, bind, raise.
  rewrite Ht, String.eqb_refl, Hst.
  unfold try_finally, close_and_clear. rewrite Ht.
  case_bool_decide as Hterm.
  - unfold bind, extern, delete_litestar_scope_state. simpl.
    destruct (fault (EClose s) (trace w)) eqn:Ef; simpl.
    + split; [done |]. split; [done |]. intros _ [=].
    + rewrite Hs. simpl. split; [done |]. split; [done |]. done.
  - simpl. rewrite app_nil_r. split; [done |]. split; [done |]. done.
Qed.

(** [commit_on_redirect] matters for the statuses 300..399 only: on any
    message whose status is outside that range (or that has none) the handler
    made with [commit_on_redirect] and the one made without it, from the same
    extra statuses, do the same. *)
Theorem commit_on_redirect_only_for_redirects
    (extra_commit extra_rollback : option (gset Z))
    (h_plain h_redirect : Message -> M Litestar.World unit)
    (message : Message) (w : Litestar.World) :
  autocommit_handler_maker SESSION_SCOPE_KEY SESSION_TERMINUS_ASGI_EVENTS
    HTTP_RESPONSE_START fault false extra_commit extra_rollback = Ok h_plain ->
  autocommit_handler_maker SESSION_SCOPE_KEY SESSION_TERMINUS_ASGI_EVENTS
    HTTP_RESPONSE_START fault true extra_commit extra_rollback = Ok h_redirect ->
  (forall status, msg_status message = Some status -> ~ (300 <= status < 400)) ->
  h_plain message w = h_redirect message w.
Proof.
  intros Hp Hr Hout.
  unfold autocommit_handler_maker in Hp, Hr.
  case_bool_decide; [discriminate |].
  injection Hp as <-. injection Hr as <-. simpl.
  unfold handler, bind, get_litestar_scope_state, gets. simpl.
  destruct (scope_state w !! SESSION_SCOPE_KEY) as [s |]; [| reflexivity].
  unfold commit_or_rollback. simpl.
  destruct (String.eqb _ _); [| reflexivity].
  unfold message_status, bind.
  destruct (msg_status message) as [status |] eqn:Hst; [| reflexivity].
  specialize (Hout status eq_refl).
  assert (Hrange : in_range 200 300 status = in_range 200 400 status).
  { unfold in_range.
    destruct (200 <=? status) eqn:E1; simpl; [| reflexivity].
    destruct (status <? 300) eqn:E2; destruct (status <? 400) eqn:E3; try reflexivity;
      rewrite ?Z.leb_le, ?Z.ltb_lt, ?Z.ltb_ge in *; lia. }
  simpl. by rewrite Hrange.
Qed.


End HandlerProperties.

(** ** The request life cycle and the providers *)

Section LifecycleProperties.

Import Litestar.

Variable SESSION_SCOPE_KEY : string.
Variable SESSION_TERMINUS_ASGI_EVENTS : gset string.
Variable HTTP_RESPONSE_START : string.
Variable fault : Event -> list Event -> option Exception.

Local Abbreviation made_handler :=
  (handler SESSION_SCOPE_KEY SESSION_TERMINUS_ASGI_EVENTS HTTP_RESPONSE_START fault).
Local Abbreviation default_handler_ :=
  (default_before_send_handler SESSION_SCOPE_KEY SESSION_TERMINUS_ASGI_EVENTS fault).
Local Abbreviation cleanup :=
  (close_and_clear SESSION_SCOPE_KEY SESSION_TERMINUS_ASGI_EVENTS fault).
Local Abbreviation deciding := (commit_or_rollback HTTP_RESPONSE_START fault).
Local Abbreviation provide := (provide_session SESSION_SCOPE_KEY fault).

(** The [try] block leaves the scope state and the application state as they
    are. *)
Lemma deciding_keeps_state rng A B session message w :
  scope_state (deciding rng A B session message w).2 = scope_state w
  /\ app_state (deciding rng A B session message w).2 = app_state w.
Proof.
  unfold commit_or_rollback, message_status, bind, ret, raise, extern.
  destruct session as [s |]; [| done].
  destruct (String.eqb _ _); [| done].
  destruct (msg_status message); [| done].
  destruct (_ && _); simpl; by destruct (fault _ _).
Qed.

(** The [finally] block on a terminus message, when the close returns. *)
Lemma cleanup_clears s message w :
  msg_type message ∈ SESSION_TERMINUS_ASGI_EVENTS ->
  scope_state w !! SESSION_SCOPE_KEY = Some s ->
  fault (EClose s) (trace w) = None ->
  cleanup (Some s) message w
  = (Ok tt,
     {| app_state := app_state w;
        scope_state := delete SESSION_SCOPE_KEY (scope_state w);
        trace := trace w ++ [EClose s] |}).
Proof.
  intros Hterm Hs Hok. unfold close_and_clear.
  rewrite bool_decide_eq_true_2 by done.
  unfold bind, extern, delete_litestar_scope_state. rewrite Hok. simpl.
  by rewrite Hs.
Qed.

(** The first access in a scope without a session. *)
Lemma provide_session_first self maker_id w :
  scope_state w !! SESSION_SCOPE_KEY = None ->
  app_state w !! session_maker_app_state_key self = Some (SVSessionMaker maker_id) ->
  fault (ECreate {| made_by := maker_id; serial := length (trace w) |}) (trace w)
    = None ->
  provide self w
  = (Ok {| made_by := maker_id; serial := length (trace w) |},
     {| app_state := app_state w;
        scope_state :=
          <[SESSION_SCOPE_KEY := {| made_by := maker_id; serial := length (trace w) |}]>
            (scope_state w);
        trace :=
          trace w ++ [ECreate {| made_by := maker_id; serial := length (trace w) |}] |}).
Proof.
  intros Hnone Hmk Hok.
  unfold provide_session, get_litestar_scope_state, state_getitem,
    call_session_maker, set_litestar_scope_state, extern, bind, gets, modify, ret.
  simpl. rewrite Hnone, Hmk. simpl. by rewrite Hok.
Qed.

(** An access in a scope without a session calls the session maker, whether
    the call returns or raises. *)
Lemma provide_session_calls_maker self maker_id w :
  scope_state w !! SESSION_SCOPE_KEY = None ->
  app_state w !! session_maker_app_state_key self = Some (SVSessionMaker maker_id) ->
  trace (provide self w).2
  = trace w ++ [ECreate {| made_by := maker_id; serial := length (trace w) |}].
Proof.
  intros Hnone Hmk.
  unfold provide_session, get_litestar_scope_state, state_getitem,
    call_session_maker, set_litestar_scope_state, extern, bind, gets, modify, ret.
  simpl. rewrite Hnone, Hmk. simpl. by destruct (fault _ _).
Qed.

(** A session is closed at most once: once a handler has closed and cleared
    the session on a terminus message, every later call of either handler in
    that scope, with any message, does nothing. *)
Theorem handlers_idle_after_terminus
    (rng rng' : Z * Z) (A B A' B' : gset Z)
    (message message' : Message) (s : Session) (w : Litestar.World) :
  scope_state w !! SESSION_SCOPE_KEY = Some s ->
  msg_type message ∈ SESSION_TERMINUS_ASGI_EVENTS ->
  (forall past, fault (EClose s) past = None) ->
  let w1 := (made_handler rng A B message w).2 in
  let w2 := (default_handler_ message w).2 in
  made_handler rng' A' B' message' w1 = (Ok tt, w1)
  /\ default_handler_ message' w1 = (Ok tt, w1)
  /\ made_handler rng' A' B' message' w2 = (Ok tt, w2)
  /\ default_handler_ message' w2 = (Ok tt, w2).
Proof.
  intros Hs Hterm Hok w1 w2.
  assert (H1 : scope_state w1 !! SESSION_SCOPE_KEY = None).
  { subst w1. unfold handler, get_litestar_scope_state, gets, bind. simpl.
    rewrite Hs, try_finally_snd.
    destruct (deciding_keeps_state rng A B (Some s) message w) as [Hsc _].
    rewrite cleanup_clears; [apply lookup_delete_eq | done | by rewrite Hsc | done]. }
  assert (H2 : scope_state w2 !! SESSION_SCOPE_KEY = None).
  { subst w2. unfold default_before_send_handler, get_litestar_scope_state, gets,
      bind. simpl.
    rewrite Hs, cleanup_clears by done. apply lookup_delete_eq. }
  assert (Hidle : forall w',
            scope_state w' !! SESSION_SCOPE_KEY = None ->
            made_handler rng' A' B' message' w' = (Ok tt, w')
            /\ default_handler_ message' w' = (Ok tt, w')).
  { intros w' Hnone.
    unfold handler, default_before_send_handler, get_litestar_scope_state, gets,
      bind. simpl. by rewrite Hnone. }
  destruct (Hidle w1 H1). destruct (Hidle w2 H2). done.
Qed.

(** One request from first access to response start, with collaborators that
    do not fail and response start among the terminus events: the session is
    made at the first access, committed or rolled back and closed by the
    autocommit handler, and the scope is left without a session; an access
    after that makes a second session, different from the first. *)
Theorem request_lifecycle
    (self : SQLAlchemyAsyncConfig) (maker_id : nat)
    (rng : Z * Z) (A B : gset Z) (status : Z) (w : Litestar.World) :
  scope_state w !! SESSION_SCOPE_KEY = None ->
  app_state w !! session_maker_app_state_key self = Some (SVSessionMaker maker_id) ->
  HTTP_RESPONSE_START ∈ SESSION_TERMINUS_ASGI_EVENTS ->
  (forall ev past, fault ev past = None) ->
  let s := {| made_by := maker_id; serial := length (trace w) |} in
  let s' := {| made_by := maker_id; serial := length (trace w) + 3 |} in
  let message := {| msg_type := HTTP_RESPONSE_START; msg_status := Some status |} in
  exists d,
    (d = ECommit s \/ d = ERollback s)
    /\ (provide self ;;; made_handler rng A B message) w
       = (Ok tt, with_trace (fun t => t ++ [ECreate s; d; EClose s]) w)
    /\ (provide self ;;; made_handler rng A B message ;;; provide self) w
       = (Ok s',
          {| app_state := app_state w;
             scope_state := <[SESSION_SCOPE_KEY := s']> (scope_state w);
             trace := trace w ++ [ECreate s; d; EClose s; ECreate s'] |})
    /\ s' <> s.
Proof.
  intros Hnone Hmk Hterm Hok s s' message.
  set (d := if (in_range rng.1 rng.2 status || bool_decide (status ∈ A))
               && negb (bool_decide (status ∈ B))
            then ECommit s else ERollback s).
  exists d. split; [subst d; destruct (_ && _); auto |].
  assert (Hfirst : provide self w
                   = (Ok s,
                      {| app_state := app_state w;
                         scope_state := <[SESSION_SCOPE_KEY := s]> (scope_state w);
                         trace := trace w ++ [ECreate s] |})).
  { apply provide_session_first; [done | done | apply Hok]. }
  assert (Hhandle : forall w1,
            scope_state w1 = <[SESSION_SCOPE_KEY := s]> (scope_state w) ->
            made_handler rng A B message w1
            = (Ok tt,
               {| app_state := app_state w1;
                  scope_state := scope_state w;
                  trace := trace w1 ++ [d; EClose s] |})).
  { intros w1 Hsc.
    assert (Hl : scope_state w1 !! SESSION_SCOPE_KEY = Some s)
      by (rewrite Hsc; apply lookup_insert_eq).
    rewrite handler_unfold, Hl. unfold try_finally.
    rewrite (deciding_response_start HTTP_RESPONSE_START fault rng A B s
               message status) by done.
    fold d. unfold extern at 1. rewrite Hok.
    rewrite (cleanup_clears s); [| exact Hterm | exact Hl | apply Hok].
    cbn [app_state scope_state trace with_trace].
    rewrite Hsc, delete_insert_eq, delete_id by done.
    by rewrite <- app_assoc. }
  assert (Htwo : (provide self ;;; made_handler rng A B message) w
                 = (Ok tt, with_trace (fun t => t ++ [ECreate s; d; EClose s]) w)).
  { unfold bind at 1. rewrite Hfirst, Hhandle by done.
    unfold with_trace. simpl. by rewrite <- app_assoc. }
  split; [exact Htwo |]. split.
  - unfold bind at 1. rewrite Hfirst. unfold bind at 1. rewrite Hhandle by done.
    rewrite (provide_session_first self maker_id); [| done | done | apply Hok].
    cbn [app_state scope_state trace].
    rewrite <- !app_assoc, !length_app. cbn [length app].
    replace (length (trace w) + 1 + 2)%nat with (length (trace w) + 3)%nat by lia.
    reflexivity.
  - subst s s'. intros [=]. lia.
Qed.

(** No session maker in the application state: the first access raises
    [KeyError] on the session maker key; nothing is made and nothing is
    stored. *)
Theorem provide_session_without_maker
    (self : SQLAlchemyAsyncConfig) (w : Litestar.World) :
  scope_state w !! SESSION_SCOPE_KEY = None ->
  app_state w !! session_maker_app_state_key self = None ->
  provide self w = (Raise (KeyError (session_maker_app_state_key self)), w).
Proof.
  intros Hnone Hmk.
  unfold provide_session, get_litestar_scope_state, state_getitem, bind, gets.
  simpl. by rewrite Hnone, Hmk.
Qed.

(** The session maker raises: [provide_session] raises the same exception
    and stores nothing, so the scope is still without a session and a later
    access calls the session maker again. *)
Theorem provide_session_maker_raises
    (self : SQLAlchemyAsyncConfig) (maker_id : nat) (e : Exception)
    (w : Litestar.World) :
  scope_state w !! SESSION_SCOPE_KEY = None ->
  app_state w !! session_maker_app_state_key self = Some (SVSessionMaker maker_id) ->
  let s := {| made_by := maker_id; serial := length (trace w) |} in
  fault (ECreate s) (trace w) = Some e ->
  let after := provide self w in
  after = (Raise e, with_trace (fun t => t ++ [ECreate s]) w)
  /\ scope_state after.2 !! SESSION_SCOPE_KEY = None
  /\ trace (provide self after.2).2
     = trace w ++
         [ECreate s;
          ECreate {| made_by := maker_id; serial := S (length (trace w)) |}].
Proof.
  intros Hnone Hmk s Hf after.
  assert (Hrun : after = (Raise e, with_trace (fun t => t ++ [ECreate s]) w)).
  { subst after.
    unfold provide_session, get_litestar_scope_state, state_getitem,
      call_session_maker, extern, bind, gets. simpl.
    rewrite Hnone, Hmk. simpl. fold s. by rewrite Hf. }
  rewrite Hrun. cbn [snd]. split; [done |]. split; [done |].
  rewrite (provide_session_calls_maker self maker_id) by done.
  cbn [trace with_trace]. rewrite length_app, <- app_assoc. cbn [length app].
  replace (length (trace w) + 1)%nat with (S (length (trace w))) by lia.
  reflexivity.
Qed.

(** No engine under the engine key: [on_shutdown] raises [KeyError] on the
    key; nothing is disposed and nothing changes. *)
Theorem on_shutdown_without_engine
    (self : SQLAlchemyAsyncConfig) (w : Litestar.World) :
  app_state w !! engine_app_state_key self = None ->
  on_shutdown fault self w = (Raise (KeyError (engine_app_state_key self)), w).
Proof.
  intros Hnone. unfold on_shutdown, state_pop, bind. by rewrite Hnone.
Qed.

(** However [on_shutdown] ends, [provide_engine] gives [None] after it.
    [on_shutdown] touches nothing but the engine key: the scope state and
    every other key of the application state stay, and it makes no call on a
    session. *)
Theorem engine_gone_after_shutdown
    (self : SQLAlchemyAsyncConfig) (w : Litestar.World) :
  let after := on_shutdown fault self w in
  provide_engine self after.2 = (Ok SVNone, after.2)
  /\ scope_state after.2 = scope_state w
  /\ (forall k, k <> engine_app_state_key self ->
        app_state after.2 !! k = app_state w !! k)
  /\ (exists new,
        trace after.2 = trace w ++ new
        /\ forall ev, ev ∈ new -> exists engine, ev = EDispose engine).
Proof.
  intros after. subst after.
  unfold on_shutdown, state_pop, engine_dispose, provide_engine, state_get,
    extern, bind, gets, raise.
  destruct (app_state w !! engine_app_state_key self) as [v |] eqn:Hv; simpl.
  - assert (Hidle : exists new : list Event,
              trace w = trace w ++ new
              /\ forall ev, ev ∈ new -> exists engine, ev = EDispose engine).
    { exists []. rewrite app_nil_r. split; [done |].
      by intros ev ?%elem_of_nil. }
    destruct v as [| engine | m | tag]; simpl;
      try (rewrite lookup_delete_eq; simpl; split; [done |]; split; [done |];
           split; [intros k Hk; by rewrite lookup_delete_ne | exact Hidle]).
    destruct (fault _ _); simpl; rewrite lookup_delete_eq; simpl;
      (split; [done |]; split; [done |];
       split; [intros k Hk; by rewrite lookup_delete_ne |]);
      (exists [EDispose engine]; split; [done |];
       intros ev ->%list_elem_of_singleton; by eexists).
  - rewrite Hv. simpl. split; [done |]. split; [done |]. split; [done |].
    exists []. rewrite app_nil_r. split; [done |]. by intros ev ?%elem_of_nil.
Qed.

End LifecycleProperties.

(** ** Application state set-up *)

Section SetupProperties.

Import Litestar Setup.

Variable SESSION_SCOPE_KEY : string.
Variable fault : Event -> list Event -> option Exception.
Variable get_engine : Result nat.
Variable session_maker_class : gmap string StateValue -> Result nat.

Local Abbreviation make_maker := (create_session_maker get_engine session_maker_class).
Local Abbreviation items_of := (create_app_state_items get_engine session_maker_class).
Local Abbreviation set_up := (update_app_state get_engine session_maker_class).

(** [update_app_state] when both items can be had. *)
Lemma set_up_run self settings engine made w :
  get_engine = Ok engine ->
  make_maker settings = Ok made ->
  set_up self settings w
  = (Ok tt,
     {| app_state :=
          <[session_maker_app_state_key self := SVSessionMaker made]>
            (<[engine_app_state_key self := SVEngine engine]> ∅)
          ∪ app_state w;
        scope_state := scope_state w;
        trace := trace w |}).
Proof.
  intros He Hm.
  unfold update_app_state, create_app_state_items, result_bind.
  by rewrite Hm, He.
Qed.

(** [on_shutdown] when an engine is stored. *)
Lemma on_shutdown_run self engine w :
  app_state w !! engine_app_state_key self = Some (SVEngine engine) ->
  on_shutdown fault self w
  = (match fault (EDispose engine) (trace w) with
     | Some e => Raise e
     | None => Ok tt
     end,
     {| app_state := delete (engine_app_state_key self) (app_state w);
        scope_state := scope_state w;
        trace := trace w ++ [EDispose engine] |}).
Proof.
  intros Hl. unfold on_shutdown, state_pop, engine_dispose, extern, bind.
  rewrite Hl. simpl. by destruct (fault _ _).
Qed.

(** [create_session_maker]: a configured session maker is returned as it is
    and the engine is not asked for.  Otherwise the session maker class is
    called with the session keyword arguments: as they are when they carry a
    [bind] that is not [None], and with [bind] set to the engine of the
    configuration when [bind] is missing or [None]; when the engine cannot be
    had, the exception of [get_engine] is raised and no session maker is
    made. *)
Theorem create_session_maker_binds_engine (self : SessionSettings) :
  (forall configured,
     session_maker self = Some configured -> make_maker self = Ok configured)
  /\ (session_maker self = None ->
      (forall b,
         session_config_dict self !! "bind" = Some b -> b <> SVNone ->
         make_maker self = session_maker_class (session_config_dict self))
      /\ (session_config_dict self !! "bind" = None
          \/ session_config_dict self !! "bind" = Some SVNone ->
          (forall engine,
             get_engine = Ok engine ->
             make_maker self
             = session_maker_class
                 (<["bind" := SVEngine engine]> (session_config_dict self)))
          /\ (forall e, get_engine = Raise e -> make_maker self = Raise e))).
Proof.
  unfold create_session_maker. split.
  - intros configured ->. reflexivity.
  - intros ->. split.
    + intros b -> Hb. simpl. by destruct b.
    + intros Hbind.
      assert (Hnone : is_state_none
                        (default SVNone (session_config_dict self !! "bind")) = true)
        by (destruct Hbind as [-> | ->]; reflexivity).
      rewrite Hnone. split.
      * intros engine ->. reflexivity.
      * intros e ->. reflexivity.
Qed.

(** Start-up, with an engine and a session maker that can be had, under two
    different keys: after [update_app_state], [provide_engine] gives the
    engine of the configuration and the session maker is stored under its
    key; the other entries of the application state, the scope state and the
    trace are as before. *)
Theorem update_app_state_registers
    (self : SQLAlchemyAsyncConfig) (settings : SessionSettings)
    (engine made : nat) (w : Litestar.World) :
  get_engine = Ok engine ->
  make_maker settings = Ok made ->
  engine_app_state_key self <> session_maker_app_state_key self ->
  let w1 := (set_up self settings w).2 in
  set_up self settings w = (Ok tt, w1)
  /\ provide_engine self w1 = (Ok (SVEngine engine), w1)
  /\ app_state w1 !! session_maker_app_state_key self = Some (SVSessionMaker made)
  /\ (forall k,
        k <> engine_app_state_key self -> k <> session_maker_app_state_key self ->
        app_state w1 !! k = app_state w !! k)
  /\ scope_state w1 = scope_state w
  /\ trace w1 = trace w.
Proof.
  intros He Hm Hkeys w1. subst w1.
  unfold update_app_state, create_app_state_items, result_bind.
  rewrite Hm, He. simpl.
  split; [done |]. split.
  { unfold provide_engine, state_get, gets. simpl.
    rewrite lookup_union_l'.
    - by rewrite lookup_insert_ne, lookup_insert_eq.
    - rewrite lookup_insert_ne, lookup_insert_eq by done. by eexists. }
  split.
  { rewrite lookup_union_l'.
    - by rewrite lookup_insert_eq.
    - rewrite lookup_insert_eq. by eexists. }
  split; [| done].
  intros k Hk1 Hk2. rewrite lookup_union_r; [done |].
  by rewrite !lookup_insert_ne, lookup_empty.
Qed.

(** Start-up and the first access: after [update_app_state], the first
    [provide_session] in a scope without a session finds the session maker
    and stores a session made by it. *)
Theorem first_access_after_set_up
    (self : SQLAlchemyAsyncConfig) (settings : SessionSettings)
    (engine made : nat) (w : Litestar.World) :
  get_engine = Ok engine ->
  make_maker settings = Ok made ->
  scope_state w !! SESSION_SCOPE_KEY = None ->
  let s := {| made_by := made; serial := length (trace w) |} in
  fault (ECreate s) (trace w) = None ->
  exists w2,
    (set_up self settings ;;; provide_session SESSION_SCOPE_KEY fault self) w
    = (Ok s, w2)
    /\ scope_state w2 !! SESSION_SCOPE_KEY = Some s
    /\ trace w2 = trace w ++ [ECreate s].
Proof.
  intros He Hm Hnone s Hok.
  unfold bind at 1.
  unfold update_app_state, create_app_state_items, result_bind.
  rewrite Hm, He. cbn [fst snd].
  set (w1 := with_app_state _ w).
  assert (Hmk : app_state w1 !! session_maker_app_state_key self
                = Some (SVSessionMaker made)).
  { subst w1. simpl. rewrite lookup_union_l'.
    - by rewrite lookup_insert_eq.
    - rewrite lookup_insert_eq. by eexists. }
  unfold provide_session, get_litestar_scope_state, state_getitem,
    call_session_maker, set_litestar_scope_state, extern, bind, gets, modify, ret.
  cbn [fst snd].
  replace (scope_state w1) with (scope_state w) by done.
  rewrite Hnone, Hmk.
  replace (trace w1) with (trace w) by done. fold s. rewrite Hok.
  eexists. split; [reflexivity |]. simpl. split; [apply lookup_insert_eq | done].
Qed.

(** Start-up and shutdown: [on_shutdown] after [update_app_state] disposes
    the engine of the configuration, once, and takes it out of the
    application state; the session maker stays. *)
Theorem shutdown_after_set_up
    (self : SQLAlchemyAsyncConfig) (settings : SessionSettings)
    (engine made : nat) (w : Litestar.World) :
  get_engine = Ok engine ->
  make_maker settings = Ok made ->
  engine_app_state_key self <> session_maker_app_state_key self ->
  let after := (set_up self settings ;;; on_shutdown fault self) w in
  trace after.2 = trace w ++ [EDispose engine]
  /\ app_state after.2 !! engine_app_state_key self = None
  /\ app_state after.2 !! session_maker_app_state_key self
     = Some (SVSessionMaker made)
  /\ (fault (EDispose engine) (trace w) = None -> after.1 = Ok tt).
Proof.
  intros He Hm Hkeys after. subst after.
  unfold bind. rewrite (set_up_run self settings engine made) by done.
  rewrite (on_shutdown_run self engine).
  2:{ simpl. rewrite lookup_union_l'.
      - by rewrite lookup_insert_ne, lookup_insert_eq.
      - rewrite lookup_insert_ne, lookup_insert_eq by done. by eexists. }
  cbn [fst snd app_state scope_state trace].
  split; [done |]. split; [apply lookup_delete_eq |]. split.
  - rewrite lookup_delete_ne by done. rewrite lookup_union_l'.
    + by rewrite lookup_insert_eq.
    + rewrite lookup_insert_eq. by eexists.
  - by intros ->.
Qed.

(** One key for both entries: the session maker, written second, takes the
    place of the engine.  [provide_engine] then gives the session maker, and
    [on_shutdown] removes it, raises [AttributeError] and disposes no
    engine. *)
Theorem set_up_with_one_key
    (self : SQLAlchemyAsyncConfig) (settings : SessionSettings)
    (engine made : nat) (w : Litestar.World) :
  get_engine = Ok engine ->
  make_maker settings = Ok made ->
  engine_app_state_key self = session_maker_app_state_key self ->
  let w1 := (set_up self settings w).2 in
  provide_engine self w1 = (Ok (SVSessionMaker made), w1)
  /\ on_shutdown fault self w1
     = (Raise (AttributeError "dispose"),
        with_app_state (delete (engine_app_state_key self)) w1)
  /\ trace (on_shutdown fault self w1).2 = trace w.
Proof.
  intros He Hm Hkeys w1. subst w1.
  unfold update_app_state, create_app_state_items, result_bind.
  rewrite Hm, He. cbn [fst snd]. rewrite <- Hkeys.
  set (w1 := with_app_state _ w).
  assert (Hl : app_state w1 !! engine_app_state_key self
               = Some (SVSessionMaker made)).
  { subst w1. simpl. rewrite lookup_union_l'.
    - by rewrite lookup_insert_eq.
    - rewrite lookup_insert_eq. by eexists. }
  unfold provide_engine, state_get, gets, on_shutdown, state_pop, engine_dispose,
    bind, raise.
  rewrite Hl. simpl. done.
Qed.

(** Start-up asks for the engine first: when [get_engine] raises,
    [update_app_state] raises the same exception and writes nothing, also
    when a session maker is configured; and when the session maker cannot be
    made, nothing is written either, the engine included. *)
Theorem update_app_state_all_or_nothing
    (self : SQLAlchemyAsyncConfig) (settings : SessionSettings)
    (w : Litestar.World) :
  (forall e, get_engine = Raise e -> set_up self settings w = (Raise e, w))
  /\ (forall engine e,
        get_engine = Ok engine -> make_maker settings = Raise e ->
        set_up self settings w = (Raise e, w)).
Proof.
  unfold update_app_state, create_app_state_items, result_bind. split.
  - intros e ->. reflexivity.
  - intros engine e -> ->. reflexivity.
Qed.

End SetupProperties.

(** ** [find_filter] *)

Section FindFilterProperties.

Import Filters.

Variable Filter : Type.
Variable FilterType : Type.
Variable isinstance : Filter -> FilterType -> bool.

(** [find_filter] returns the first filter of the asked type: the filters
    before it are not of that type; and it returns [None] exactly when no
    filter is of that type (the empty list included). *)
Theorem find_filter_first (filter_type : FilterType) (filters : list Filter) :
  (forall f,
     find_filter Filter FilterType isinstance filter_type filters = Some f <->
     exists before after,
       filters = before ++ f :: after
       /\ isinstance f filter_type = true
       /\ Forall (fun g => isinstance g filter_type = false) before)
  /\ (find_filter Filter FilterType isinstance filter_type filters = None <->
      Forall (fun g => isinstance g filter_type = false) filters).
Proof.
  induction filters as [| g rest [IHsome IHnone]]; simpl.
  - split.
    + intros f. split; [discriminate |].
      intros (before & after & Heq & _). by destruct before.
    + split; [constructor | done].
  - destruct (isinstance g filter_type) eqn:Hg.
    + split.
      * intros f. split.
        -- intros [= <-]. exists [], rest. by repeat split.
        -- intros (before & after & Heq & Hf & Hbefore).
           destruct before as [| b before]; simpl in Heq.
           ++ by injection Heq as ->.
           ++ injection Heq as <- _. inversion Hbefore; congruence.
      * split; [discriminate |]. intros Hall. inversion Hall; congruence.
    + split.
      * intros f. rewrite IHsome. split.
        -- intros (before & after & -> & Hf & Hbefore).
           exists (g :: before), after. repeat split; try done.
           by constructor.
        -- intros (before & after & Heq & Hf & Hbefore).
           destruct before as [| b before]; simpl in Heq.
           ++ injection Heq as -> _. congruence.
           ++ injection Heq as <- ->. exists before, after.
              repeat split; try done. by inversion Hbefore.
      * rewrite IHnone. split.
        -- intros Hall. by constructor.
        -- intros Hall. by inversion Hall.
Qed.

(** Filters given first win: over two lists of filters put one after the
    other, [find_filter] gives what it finds in the first list, and looks in
    the second only when the first has no filter of the asked type. *)
Theorem find_filter_app (filter_type : FilterType) (first second : list Filter) :
  find_filter Filter FilterType isinstance filter_type (first ++ second)
  = match find_filter Filter FilterType isinstance filter_type first with
    | Some f => Some f
    | None => find_filter Filter FilterType isinstance filter_type second
    end.
Proof.
  induction first as [| g rest IH]; simpl; [done |].
  by destruct (isinstance g filter_type).
Qed.

End FindFilterProperties.

(** ** Further properties of the repository service *)

Section MoreServiceProperties.

Import Service.

Variable model_type : string.
Variable id_attribute : string.
Variable self_match_fields : option (list string).
Variable repository : RepoCall -> Service.World -> Result Ret * gmap nat Entity.

Local Abbreviation call := (repository_call repository).
Local Abbreviation convert := (to_model model_type).
Local Abbreviation convert_all := (to_models model_type).

Local Abbreviation attr_name id_attr :=
  (match id_attr with
   | Some (IdInstrumented description) => Some description
   | Some (IdName name) => Some name
   | None => None
   end).



End MoreServiceProperties.

(** ** More worked cases *)

Import Litestar Samples Setup MoreSamples.

Lemma autocommit_handler_without_session_witness :
  default_handler bare_start world_idle = (Ok tt, world_idle).
Proof.
  apply (autocommit_handler_without_session scope_key terminus response_start
           no_fault (200, 300) ∅ ∅ bare_start world_idle).
  reflexivity.
Defined.

Lemma autocommit_handler_is_default_off_response_start_witness :
  default_handler disconnect_message world_open
  = default_before_send_handler scope_key terminus no_fault disconnect_message
      world_open.
Proof.
  apply (autocommit_handler_is_default_off_response_start scope_key terminus
           response_start no_fault (200, 300) ∅ ∅ disconnect_message world_open).
  discriminate.
Defined.

Lemma autocommit_handler_missing_status_witness :
  (default_handler bare_start world_open).1 = Raise (KeyError "status")
  /\ scope_state (default_handler bare_start world_open).2
     = delete scope_key (scope_state world_open).
Proof.
  apply (autocommit_handler_missing_status scope_key terminus response_start
           no_fault (200, 300) ∅ ∅ bare_start session0 world_open);
    [reflexivity | reflexivity | reflexivity | vm_compute; set_solver | reflexivity].
Defined.

Lemma commit_on_redirect_only_for_redirects_witness :
  default_handler (start_message 404) world_open
  = redirect_handler (start_message 404) world_open.
Proof.
  apply (commit_on_redirect_only_for_redirects scope_key terminus response_start
           no_fault None None default_handler redirect_handler
           (start_message 404) world_open);
    [reflexivity | reflexivity |].
  intros status [= <-]. lia.
Defined.

Lemma handlers_idle_after_terminus_witness :
  let w1 := (default_handler (start_message 201) world_open).2 in
  redirect_handler (start_message 500) w1 = (Ok tt, w1)
  /\ default_before_send_handler scope_key terminus no_fault disconnect_message w1
     = (Ok tt, w1).
Proof.
  intros w1.
  destruct (handlers_idle_after_terminus scope_key terminus response_start
              no_fault (200, 300) (200, 400) ∅ ∅ ∅ ∅ (start_message 201)
              (start_message 500) session0 world_open)
    as (H1 & _); [reflexivity | vm_compute; set_solver | reflexivity |].
  destruct (handlers_idle_after_terminus scope_key terminus response_start
              no_fault (200, 300) (200, 400) ∅ ∅ ∅ ∅ (start_message 201)
              disconnect_message session0 world_open)
    as (_ & H2 & _); [reflexivity | vm_compute; set_solver | reflexivity |].
  split; [exact H1 | exact H2].
Defined.

Lemma request_lifecycle_witness :
  exists d,
    (d = ECommit session0 \/ d = ERollback session0)
    /\ (provide_session scope_key no_fault default_config ;;;
        default_handler (start_message 201)) world_idle
       = (Ok tt,
          with_trace (fun t => t ++ [ECreate session0; d; EClose session0])
            world_idle).
Proof.
  destruct (request_lifecycle scope_key terminus response_start no_fault
              default_config 0 (200, 300) ∅ ∅ 201 world_idle)
    as (d & Hd & Hrun & _);
    [reflexivity | reflexivity | vm_compute; set_solver | reflexivity |].
  exists d. split; [exact Hd | exact Hrun].
Defined.

Lemma provide_session_without_maker_witness :
  provide_session scope_key no_fault default_config world_bare
  = (Raise (KeyError "session_maker_class"), world_bare).
Proof.
  apply (provide_session_without_maker scope_key no_fault default_config
           world_bare); reflexivity.
Defined.

Lemma provide_session_maker_raises_witness :
  provide_session scope_key create_fails default_config world_idle
  = (Raise (External 2),
     with_trace (fun t => t ++ [ECreate session0]) world_idle).
Proof.
  apply (provide_session_maker_raises scope_key create_fails default_config 0
           (External 2) world_idle); reflexivity.
Defined.

Lemma on_shutdown_without_engine_witness :
  on_shutdown no_fault default_config world_bare
  = (Raise (KeyError "db_engine"), world_bare).
Proof.
  apply (on_shutdown_without_engine no_fault default_config world_bare).
  reflexivity.
Defined.

Lemma update_app_state_registers_witness :
  let w1 := (update_app_state (Ok 0%nat) maker_of_bind default_config
               plain_settings world_bare).2 in
  provide_engine default_config w1 = (Ok (SVEngine 0), w1)
  /\ app_state w1 !! "session_maker_class" = Some (SVSessionMaker 0).
Proof.
  intros w1.
  destruct (update_app_state_registers (Ok 0%nat) maker_of_bind default_config
              plain_settings 0 0 world_bare)
    as (_ & He & Hm & _); [reflexivity | reflexivity | discriminate |].
  split; [exact He | exact Hm].
Defined.

Lemma first_access_after_set_up_witness :
  exists w2,
    (update_app_state (Ok 0%nat) maker_of_bind default_config plain_settings ;;;
     provide_session scope_key no_fault default_config) world_bare
    = (Ok session0, w2)
    /\ scope_state w2 !! scope_key = Some session0
    /\ trace w2 = trace world_bare ++ [ECreate session0].
Proof.
  apply (first_access_after_set_up scope_key no_fault (Ok 0%nat) maker_of_bind
           default_config plain_settings 0 0 world_bare); reflexivity.
Defined.

Lemma shutdown_after_set_up_witness :
  trace
    ((update_app_state (Ok 0%nat) maker_of_bind default_config plain_settings ;;;
      on_shutdown no_fault default_config) world_bare).2
  = trace world_bare ++ [EDispose 0].
Proof.
  apply (shutdown_after_set_up no_fault (Ok 0%nat) maker_of_bind default_config
           plain_settings 0 0 world_bare);
    [reflexivity | reflexivity | discriminate].
Defined.

Lemma set_up_with_one_key_witness :
  let w1 := (update_app_state (Ok 0%nat) maker_of_bind same_key_config
               bound_settings world_bare).2 in
  provide_engine same_key_config w1 = (Ok (SVSessionMaker 9), w1).
Proof.
  intros w1.
  apply (set_up_with_one_key no_fault (Ok 0%nat) maker_of_bind same_key_config
           bound_settings 0 9 world_bare); reflexivity.
Defined.

Example bound_settings_keep_their_engine :
  create_session_maker (Ok 0%nat) maker_of_bind bound_settings = Ok 9%nat
  /\ create_session_maker (Ok 0%nat) maker_of_bind plain_settings = Ok 0%nat
  /\ create_session_maker (Raise (External 3)) maker_of_bind preset_settings
     = Ok 4%nat.
Proof. vm_compute. repeat split. Qed.

Example find_filter_sample :
  Filters.find_filter nat nat is_kind 1%nat [3; 4; 6; 7]%nat = Some 4%nat
  /\ Filters.find_filter nat nat is_kind 2%nat [3; 4; 6; 7]%nat = None.
Proof. vm_compute. split; reflexivity. Qed.

Import Service.


Example create_many_of_equal_mappings :
  (create_many "BigIntAuthor" echo_repository
     [DDict {[ "name" := VStr "Agatha" ]}; DModel 0; DDict {[ "name" := VStr "Agatha" ]}]
     None None store0).1
  = Ok (RetModels [1; 0; 2]%nat).
Proof. vm_compute. reflexivity. Qed.

(** ** Where the close itself fails, and where a scope is used again *)

(** C2, counterexample.  The commit raises and the close raises too: the
    handler was called with a session in scope and a terminus message, the
    commit was the call made and it raised [External 1]; yet the session key
    is still in the scope state and the handler raises the exception of the
    close, not the one of the commit. *)
Lemma autocommit_handler_cleanup_close_raises :
  let h :=
    handler scope_key terminus response_start commit_and_close_fail (200, 300) ∅ ∅ in
  let after := h (start_message 201) world_open in
  autocommit_handler_maker scope_key terminus response_start commit_and_close_fail
    false None None = Ok h
  /\ scope_state world_open !! scope_key = Some session0
  /\ msg_type (start_message 201) ∈ terminus
  /\ commit_and_close_fail (ECommit session0) (trace world_open) = Some (External 1)
  /\ trace after.2 = [ECreate session0; ECommit session0; EClose session0]
  /\ scope_state after.2 !! scope_key = Some session0
  /\ after.1 = Raise (External 2)
  /\ ~ (scope_state after.2 !! scope_key = None /\ after.1 = Raise (External 1)).
Proof.
  split; [reflexivity |]. split; [reflexivity |].
  split; [vm_compute; set_solver |]. split; [reflexivity |].
  split; [vm_compute; reflexivity |]. split; [vm_compute; reflexivity |].
  split; [vm_compute; reflexivity |].
  intros [_ Hraise]. vm_compute in Hraise. discriminate Hraise.
Qed.

(** C6, counterexample.  A session is stored, the message is a terminus
    event and the close raises: [default_before_send_handler] has called the
    close, but the session key is still in the scope state. *)
Lemma default_before_send_handler_close_raises :
  let after :=
    default_before_send_handler scope_key terminus close_fails disconnect_message
      world_open in
  scope_state world_open !! scope_key = Some session0
  /\ msg_type disconnect_message ∈ terminus
  /\ trace after.2 = [ECreate session0; EClose session0]
  /\ after.1 = Raise (External 2)
  /\ scope_state after.2 !! scope_key = Some session0
  /\ scope_state after.2 !! scope_key <> None.
Proof.
  split; [reflexivity |]. split; [vm_compute; set_solver |].
  split; [vm_compute; reflexivity |]. split; [vm_compute; reflexivity |].
  split; [vm_compute; reflexivity |].
  vm_compute. discriminate.
Qed.

(** C5, counterexample.  Two calls of [provide_session] in one scope, with
    the autocommit handler run on the response start in between: the second
    call does not return the session of the first, and two sessions have been
    made in the scope. *)
Lemma provide_session_after_terminus_makes_another :
  let first := provide_session scope_key no_fault default_config world_idle in
  let later :=
    (default_handler (start_message 201) ;;;
     provide_session scope_key no_fault default_config) first.2 in
  first.1 = Ok session0
  /\ later.1 = Ok {| made_by := 0; serial := 3 |}
  /\ later.1 <> first.1
  /\ trace later.2
     = [ECreate session0; ECommit session0; EClose session0;
        ECreate {| made_by := 0; serial := 3 |}].
Proof.
  split; [vm_compute; reflexivity |]. split; [vm_compute; reflexivity |].
  split; [vm_compute; discriminate |].
  vm_compute. reflexivity.
Qed.
